(** * Market-data proxy: validation, single-slot cache and provider adapters

    A shallow embedding of [src/api/coingecko.js] (the crypto price edge
    handler) and of the market service helpers (the Finnhub and Yahoo quote
    fetchers), followed by the properties of the specification that concern
    them.

    Conventions of the embedding:
    - a JavaScript string is a [string]; its characters are the code units
      below 256, read as Latin-1;
    - [null] and [undefined] are [None];
    - [Date.now()] is an integer number of milliseconds ([Z]);
    - a JavaScript number coming from a JSON body is a binary64 [float];
    - module-level mutable state (the cache) is passed in and returned;
    - the network is a function from the requested URL to what [fetch] and
      the body readers do;
    - [new Response] fails as the Fetch standard says: on a status outside
      200..599, and on a body given with a null body status. *)

From Stdlib Require Import Bool Ascii String List ZArith NArith Lia Floats.
Import ListNotations.

Local Open Scope string_scope.
Local Open Scope list_scope.

(* ====================================================================== *)
(** * The string primitives the sources use *)
(* ====================================================================== *)

Module JS.

Definition code (c : ascii) : N := N_of_ascii c.

Definition between (lo hi : N) (c : ascii) : bool :=
  ((lo <=? code c) && (code c <=? hi))%N.

Definition comma : ascii := ","%char.

(** [String.prototype.toLowerCase] on one code unit: the ASCII capitals and
    the Latin-1 capitals (U+00C0..U+00DE without the multiplication sign
    U+00D7) move 32 places up, everything else stays. *)
Definition lower_char (c : ascii) : ascii :=
  if between 65 90 c || (between 192 222 c && negb (code c =? 215)%N)
  then ascii_of_N (code c + 32)
  else c.

Fixpoint toLowerCase (s : string) : string :=
  match s with
  | EmptyString => EmptyString
  | String c r => String (lower_char c) (toLowerCase r)
  end.

(** White space and line terminators that [trim] strips: TAB, LF, VT, FF,
    CR, SPACE and NBSP. *)
Definition is_space (c : ascii) : bool :=
  between 9 13 c || (code c =? 32)%N || (code c =? 160)%N.

Fixpoint trimStart (s : string) : string :=
  match s with
  | EmptyString => EmptyString
  | String c r => if is_space c then trimStart r else s
  end.

Fixpoint trimEnd (s : string) : string :=
  match s with
  | EmptyString => EmptyString
  | String c r =>
      match trimEnd r with
      | EmptyString => if is_space c then EmptyString else String c EmptyString
      | r' => String c r'
      end
  end.

Definition trim (s : string) : string := trimEnd (trimStart s).

(** [s.split(',')]: one more field than there are commas. *)
Fixpoint split (s : string) : list string :=
  match s with
  | EmptyString => [EmptyString]
  | String c r =>
      if Ascii.eqb c comma then EmptyString :: split r
      else match split r with
           | [] => [String c EmptyString]
           | f :: fs => String c f :: fs
           end
  end.

(** [l.join(',')]. *)
Fixpoint join (l : list string) : string :=
  match l with
  | [] => EmptyString
  | [x] => x
  | x :: r => x ++ String comma (join r)
  end.

(** Truthiness of a string value: every string but the empty one. *)
Definition truthy (s : string) : bool :=
  match s with
  | EmptyString => false
  | String _ _ => true
  end.

(** [Array.prototype.includes] on an array of strings. *)
Definition includes (l : list string) (s : string) : bool :=
  existsb (String.eqb s) l.

Fixpoint all_chars (p : ascii -> bool) (s : string) : bool :=
  match s with
  | EmptyString => true
  | String c r => p c && all_chars p r
  end.

End JS.

(* ====================================================================== *)
(** * src/api/coingecko.js *)
(* ====================================================================== *)

Module CoinGecko.

Import JS.

Definition ALLOWED_CURRENCIES : list string :=
  ["usd"; "eur"; "gbp"; "jpy"; "cny"; "btc"; "eth"].

Definition MAX_COIN_IDS : nat := 20.

(** One character of the class [[a-z0-9-]]. *)
Definition coin_id_char (c : ascii) : bool :=
  between 97 122 c || between 48 57 c || (code c =? 45)%N.

(** [COIN_ID_PATTERN.test(id)] for [/^[a-z0-9-]+$/]: the pattern has no
    flag, so it matches the whole string, which must not be empty. *)
Definition COIN_ID_PATTERN_test (id : string) : bool :=
  truthy id && all_chars coin_id_char id.

Definition default_coin_ids : string := "bitcoin,ethereum,solana".

Definition keep_coin_id (id : string) : bool :=
  COIN_ID_PATTERN_test id && (String.length id <=? 50)%nat.

Definition validateCoinIds (idsParam : option string) : string :=
  match idsParam with
  | None => default_coin_ids
  | Some p =>
      if negb (truthy p) then default_coin_ids
      else
        let ids :=
          firstn MAX_COIN_IDS
            (filter keep_coin_id
               (map (fun id => toLowerCase (trim id)) (split p))) in
        match ids with
        | [] => default_coin_ids
        | _ :: _ => join ids
        end
  end.

(** [val || 'usd']: [null] and the empty string give the default. *)
Definition or_default (val : option string) (d : string) : string :=
  match val with
  | Some v => if truthy v then v else d
  | None => d
  end.

Definition validateCurrency (val : option string) : string :=
  let currency := toLowerCase (or_default val "usd") in
  if includes ALLOWED_CURRENCIES currency then currency else "usd".

Definition validateBoolean (val : option string) (defaultVal : string) : string :=
  match val with
  | Some v => if String.eqb v "true" || String.eqb v "false" then v else defaultVal
  | None => defaultVal
  end.

(** ** The module-level cache *)

(** [let cache = { data: null, timestamp: 0 }]; the [key] property is
    missing until the first store. *)
Record Cache : Type := mkCache {
  data : option string;
  key : option string;
  timestamp : Z
}.

Definition initial_cache : Cache :=
  {| data := None; key := None; timestamp := 0 |}.

Definition CACHE_TTL : Z := 120 * 1000.

(** [Date.now() - cache.timestamp < CACHE_TTL]. *)
Definition isFresh (now capturedAt : Z) : bool :=
  (now - capturedAt <? CACHE_TTL)%Z.

(** [cache.key === cacheKey]: [undefined] equals no string. *)
Definition key_is (c : Cache) (cacheKey : string) : bool :=
  match key c with
  | Some k => String.eqb k cacheKey
  | None => false
  end.

(** [cache.data && cache.key === cacheKey], giving the stored body when the
    test passes. [cache.data] is tested for truthiness: [null] and the empty
    string both fail it. *)
Definition cached_for (c : Cache) (cacheKey : string) : option string :=
  match data c with
  | Some d => if truthy d && key_is c cacheKey then Some d else None
  | None => None
  end.

(** ** Requests, responses and the outside world *)

(** What the handler can see of a request: the parsed query of [req.url]
    (name and value pairs in order), and the parts it never reads. *)
Record Request : Type := mkRequest {
  req_path : string;
  req_query : list (string * string);
  req_fragment : string;
  req_method : string;
  req_headers : list (string * string)
}.

(** [url.searchParams.get(name)]: the first value under the name. *)
Fixpoint searchParams_get (name : string) (q : list (string * string)) : option string :=
  match q with
  | [] => None
  | (n, v) :: r => if String.eqb n name then Some v else searchParams_get name r
  end.

(** A response, once built. *)
Record Response : Type := mkResponse {
  body : string;
  status : Z;
  headers : list (string * string)
}.

Definition header (name : string) (r : Response) : option string :=
  searchParams_get name (headers r).

(** What the network does for a request: the fetch rejects (network
    failure, timeout), or it resolves with a status and a body whose text
    can be read ([Some]) or whose reading rejects ([None]). *)
Inductive Upstream : Type :=
| FetchRejects
| Responds (upstream_status : Z) (text : option string).

(** [response.ok]. *)
Definition ok (st : Z) : bool := ((200 <=? st) && (st <=? 299))%Z.

(** The null body statuses of the Fetch standard: a response with one of
    them has no body. *)
Definition null_body_status (st : Z) : bool :=
  ((st =? 101) || (st =? 103) || (st =? 204) || (st =? 205) || (st =? 304))%Z.

(** The statuses [new Response(body, { status })] accepts when [body] is a
    string: a status outside 200..599 is a RangeError, a null body status
    with a body (the empty string is one) is a TypeError. *)
Definition buildable (st : Z) : bool :=
  ((200 <=? st) && (st <=? 599))%Z && negb (null_body_status st).

(** [new Response(body, { status, headers })], or [None] when it throws. *)
Definition new_Response (body : string) (st : Z) (hs : list (string * string))
  : option Response :=
  if buildable st then Some (mkResponse body st hs) else None.

(** The clock at the freshness test (line 41), what the network sends for
    a URL, and the clock at the store (line 78). *)
Record World : Type := mkWorld {
  now_check : Z;
  network : string -> Upstream;
  now_store : Z
}.

(** What [await fetch(url)] and [await response.text()] give the handler:
    what the network sends, except that a response with a null body status
    has no body, so that its text is the empty string and reading it does
    not fail. *)
Definition fetch (w : World) (u : string) : Upstream :=
  match network w u with
  | FetchRejects => FetchRejects
  | Responds st text =>
      if null_body_status st then Responds st (Some EmptyString)
      else Responds st text
  end.

(** What one run of the handler leaves behind: the response, the cache,
    and the URLs it fetched. *)
Record Served : Type := mkServed {
  response : Response;
  cache_after : Cache;
  fetched : list string
}.

Definition dq : string := String (ascii_of_nat 34) EmptyString.

(** [JSON.stringify({ error: 'Failed to fetch data' })]. *)
Definition error_body : string :=
  "{" ++ dq ++ "error" ++ dq ++ ":" ++ dq ++ "Failed to fetch data" ++ dq ++ "}".

Definition common_headers (cache_control : string) (x_cache : string)
  : list (string * string) :=
  [ ("Content-Type", "application/json");
    ("Access-Control-Allow-Origin", "*");
    ("Cache-Control", cache_control);
    ("X-Cache", x_cache) ].

Definition swr : string := "public, max-age=120, stale-while-revalidate=60".

Definition cacheKey_of (ids vsCurrencies include24hrChange : string) : string :=
  ids ++ ":" ++ vsCurrencies ++ ":" ++ include24hrChange.

Definition geckoUrl_of (ids vsCurrencies include24hrChange : string) : string :=
  "https://api.coingecko.com/api/v3/simple/price?ids=" ++ ids
    ++ "&vs_currencies=" ++ vsCurrencies
    ++ "&include_24hr_change=" ++ include24hrChange.

(** The [catch] block. *)
Definition on_error (cache : Cache) (cacheKey : string) : Response :=
  match cached_for cache cacheKey with
  | Some d => mkResponse d 200 (common_headers "public, max-age=120" "ERROR-FALLBACK")
  | None =>
      mkResponse error_body 500
        [ ("Content-Type", "application/json");
          ("Access-Control-Allow-Origin", "*") ]
  end.

(** The three validated parameters of a request. *)
Definition validated (req : Request) : string * string * string :=
  ( validateCoinIds (searchParams_get "ids" (req_query req)),
    validateCurrency (searchParams_get "vs_currencies" (req_query req)),
    validateBoolean (searchParams_get "include_24hr_change" (req_query req)) "true" ).

Definition cacheKey (req : Request) : string :=
  let '(ids, vsCurrencies, include24hrChange) := validated req in
  cacheKey_of ids vsCurrencies include24hrChange.

Definition geckoUrl (req : Request) : string :=
  let '(ids, vsCurrencies, include24hrChange) := validated req in
  geckoUrl_of ids vsCurrencies include24hrChange.

(** The test of line 41,
    [cache.data && cache.key === cacheKey && Date.now() - cache.timestamp < CACHE_TTL],
    giving the stored body when it passes. *)
Definition cache_hit (w : World) (cache : Cache) (k : string) : option string :=
  match cached_for cache k with
  | Some d => if isFresh (now_check w) (timestamp cache) then Some d else None
  | None => None
  end.

(** The handler. The cache is served when the test of line 41 passes.
    Otherwise the upstream is fetched once, inside [try]: a 429 with a
    payload in the cache for the key is answered from the cache (line 62);
    any other response has its body read, is stored when [response.ok]
    (line 77) and is passed on with its status (line 81). A rejection of the
    fetch or of the reading, and a failure of [new Response] at line 81, go
    to the [catch] block, which reads the cache as it is then: after the
    store of line 78 when that has run. The responses of lines 42, 63, 93
    and 103 have the statuses 200 and 500, with which they can be built. *)
Definition handler (w : World) (req : Request) (cache : Cache) : Served :=
  let k := cacheKey req in
  match cache_hit w cache k with
  | Some d => mkServed (mkResponse d 200 (common_headers swr "HIT")) cache []
  | None =>
      let u := geckoUrl req in
      match fetch w u with
      | FetchRejects => mkServed (on_error cache k) cache [u]
      | Responds st text =>
          match (if (st =? 429)%Z then cached_for cache k else None) with
          | Some d => mkServed (mkResponse d 200 (common_headers swr "STALE")) cache [u]
          | None =>
              match text with
              | None => mkServed (on_error cache k) cache [u]
              | Some d =>
                  let cache' :=
                    if ok st
                    then {| data := Some d; key := Some k; timestamp := now_store w |}
                    else cache in
                  match new_Response d st (common_headers swr "MISS") with
                  | Some r => mkServed r cache' [u]
                  | None => mkServed (on_error cache' k) cache' [u]
                  end
              end
          end
      end
  end.

End CoinGecko.

(* ====================================================================== *)
(** * The market service helpers: Finnhub and Yahoo quote fetchers *)
(* ====================================================================== *)

Module Market.

Import JS.

Definition UPSTREAM_TIMEOUT_MS : Z := 10000.

(** What [fetch(url, { signal: AbortSignal.timeout(..) })] and
    [resp.json()] do: the fetch rejects (network failure, or the abort
    after [UPSTREAM_TIMEOUT_MS]), or it resolves with a status and a body
    that parses to a value of the declared type ([Some]) or does not
    ([None]: [json()] rejects, or the first property access throws). *)
Inductive Upstream (A : Type) : Type :=
| FetchRejects
| Responds (upstream_status : Z) (json : option A).
Arguments FetchRejects {A}.
Arguments Responds {A} upstream_status json.

Definition ok (st : Z) : bool := ((200 <=? st) && (st <=? 299))%Z.

(** ** encodeURIComponent *)

Definition hex_digit (n : N) : ascii :=
  if (n <? 10)%N then ascii_of_N (48 + n) else ascii_of_N (55 + n).

Definition percent (byte : N) : string :=
  String "%"%char
    (String (hex_digit (byte / 16)) (String (hex_digit (byte mod 16)) EmptyString)).

Definition unreserved (c : ascii) : bool :=
  between 65 90 c || between 97 122 c || between 48 57 c
  || existsb (Ascii.eqb c)
       [ "-"; "_"; "."; "!"; "~"; "*"; "'"; "("; ")" ]%char.

(** The escape of one code unit of the model, which has the code units
    below 256: one below 128 is one UTF-8 byte, the others are two. (The
    code units from U+0800 on, which take three bytes or come in surrogate
    pairs, and the lone surrogates, on which [encodeURIComponent] throws,
    are outside the strings of the model.) *)
Definition encode_char (c : ascii) : string :=
  if unreserved c then String c EmptyString
  else if (code c <? 128)%N then percent (code c)
  else percent (192 + code c / 64) ++ percent (128 + code c mod 64).

Fixpoint encodeURIComponent (s : string) : string :=
  match s with
  | EmptyString => EmptyString
  | String c r => encode_char c ++ encodeURIComponent r
  end.

(** ** Finnhub quote fetcher *)

Record FinnhubData : Type := mkFinnhubData {
  c : float; d : float; dp : float; h : float;
  l : float; o : float; pc : float; t : float
}.

Record FinnhubQuote : Type := mkFinnhubQuote {
  symbol : string;
  price : float;
  changePercent : float
}.

(** [x === 0] on numbers: IEEE equality, which both zeros satisfy. *)
Definition is_zero (x : float) : bool := PrimFloat.eqb x 0%float.

Definition finnhubUrl (symbol apiKey : string) : string :=
  "https://finnhub.io/api/v1/quote?symbol=" ++ encodeURIComponent symbol
    ++ "&token=" ++ apiKey.

Definition fetchFinnhubQuote (fetch : string -> Upstream FinnhubData)
    (symbol apiKey : string) : option FinnhubQuote :=
  match fetch (finnhubUrl symbol apiKey) with
  | FetchRejects => None
  | Responds st json =>
      if negb (ok st) then None
      else
        match json with
        | None => None
        | Some data =>
            if is_zero (c data) && is_zero (h data) && is_zero (l data) then None
            else Some {| symbol := symbol; price := c data; changePercent := dp data |}
        end
  end.

(** ** Yahoo Finance quote fetcher *)

Record YahooMeta : Type := mkYahooMeta {
  regularMarketPrice : float;
  chartPreviousClose : option float;
  previousClose : option float
}.

Record YahooSeries : Type := mkYahooSeries {
  close : option (list (option float))
}.

Record YahooIndicators : Type := mkYahooIndicators {
  quote : option (list YahooSeries)
}.

Record YahooResult : Type := mkYahooResult {
  meta : YahooMeta;
  indicators : option YahooIndicators
}.

(** [{ chart: { result: [...] } }]. *)
Record YahooChartResponse : Type := mkYahooChartResponse {
  chart_result : list YahooResult
}.

Record YahooQuote : Type := mkYahooQuote {
  yprice : float;
  change : float;
  sparkline : list float
}.

(** Truthiness of a number: everything but the zeros and NaN. *)
Definition truthy_num (x : float) : bool :=
  negb (is_zero x) && negb (PrimFloat.is_nan x).

(** [a || b] where [a] is an optional number. *)
Definition or_num (a : option float) (b : float) : float :=
  match a with
  | Some x => if truthy_num x then x else b
  | None => b
  end.

(** [meta.chartPreviousClose || meta.previousClose || price]. *)
Definition prevClose_of (m : YahooMeta) : float :=
  or_num (chartPreviousClose m) (or_num (previousClose m) (regularMarketPrice m)).

(** [((price - prevClose) / prevClose) * 100]. *)
Definition change_of (price prevClose : float) : float :=
  (((price - prevClose) / prevClose) * 100)%float.

(** [result.indicators?.quote?.[0]?.close]. *)
Definition closes_of (r : YahooResult) : option (list (option float)) :=
  match indicators r with
  | Some i =>
      match quote i with
      | Some (q0 :: _) => close q0
      | _ => None
      end
  | None => None
  end.

(** [closes?.filter(v => v != null) || []]. *)
Fixpoint non_null (vs : list (option float)) : list float :=
  match vs with
  | [] => []
  | Some v :: r => v :: non_null r
  | None :: r => non_null r
  end.

Definition sparkline_of (r : YahooResult) : list float :=
  match closes_of r with
  | Some vs => non_null vs
  | None => []
  end.

Definition yahooUrl (symbol : string) : string :=
  "https://query1.finance.yahoo.com/v8/finance/chart/" ++ encodeURIComponent symbol.

Definition fetchYahooQuote (fetch : string -> Upstream YahooChartResponse)
    (symbol : string) : option YahooQuote :=
  match fetch (yahooUrl symbol) with
  | FetchRejects => None
  | Responds st json =>
      if negb (ok st) then None
      else
        match json with
        | None => None
        | Some data =>
            match chart_result data with
            | [] => None
            | result :: _ =>
                let price := regularMarketPrice (meta result) in
                let prevClose := prevClose_of (meta result) in
                Some {| yprice := price;
                        change := change_of price prevClose;
                        sparkline := sparkline_of result |}
            end
        end
  end.

(** ** CoinGecko markets fetcher *)

Record CoinGeckoMarketItem : Type := mkCoinGeckoMarketItem {
  id : string;
  current_price : float;
  price_change_percentage_24h : float;
  sparkline_in_7d : option (list float)
}.

(** What the parsed body is to [Array.isArray]: an array, taken with the
    declared item type, or any other value. *)
Inductive MarketsBody : Type :=
| IsArray (items : list CoinGeckoMarketItem)
| NotArray.

Definition marketsUrl (ids : list string) : string :=
  "https://api.coingecko.com/api/v3/coins/markets?vs_currency=usd&ids=" ++ join ids
    ++ "&order=market_cap_desc&sparkline=true&price_change_percentage=24h".

Definition fetchCoinGeckoMarkets (fetch : string -> Upstream MarketsBody)
    (ids : list string) : list CoinGeckoMarketItem :=
  match fetch (marketsUrl ids) with
  | FetchRejects => []
  | Responds st json =>
      if negb (ok st) then []
      else
        match json with
        | Some (IsArray items) => items
        | Some NotArray => []
        | None => []
        end
  end.

End Market.

(* ====================================================================== *)
(** * Vocabulary of the statements, and sample inputs *)
(* ====================================================================== *)

Module Spec.

Import JS CoinGecko.

(** An identifier the validator lets through. *)
Definition valid_coin_id (id : string) : Prop :=
  COIN_ID_PATTERN_test id = true /\ (String.length id <= 50)%nat.

Definition no_comma (s : string) : bool :=
  all_chars (fun c => negb (Ascii.eqb c comma)) s.

(** A validated [ids] value: the comma-join of 1 to 20 valid identifiers. *)
Definition ids_ok (out : string) : Prop :=
  let ids := split out in
  out = join ids /\ (1 <= List.length ids <= 20)%nat /\ Forall valid_coin_id ids.

(** The cache-status marker of a response. *)
Definition x_cache (r : Response) : option string := header "X-Cache" r.

(** The upstream call of a run was made. *)
Definition called_upstream (s : Served) : Prop := fetched s <> [].

(** The call throws into the [catch] block: [fetch] rejects (network
    failure, timeout), or reading the body of a response other than a 429
    rejects. *)
Definition call_throws (u : Upstream) : Prop :=
  u = FetchRejects \/ exists st, st <> 429%Z /\ u = Responds st None.

(** The cache holds nothing for a key: no data at all, or another key. *)
Definition no_entry (c : Cache) (k : string) : Prop :=
  data c = None \/ key c <> Some k.

(** What line 78 stores. *)
Definition stored (w : World) (k : string) (text : string) : Cache :=
  {| data := Some text; key := Some k; timestamp := now_store w |}.

(** Something is thrown inside [try] at a response other than a 429 and
    before anything is stored: the fetch rejects, the reading of the body
    rejects, or the response is read, is not a 2xx, and has a status
    [new Response] does not accept. *)
Definition thrown_before_store (w : World) (req : Request) : Prop :=
  fetch w (geckoUrl req) = FetchRejects
  \/ (exists st, st <> 429%Z /\ fetch w (geckoUrl req) = Responds st None)
  \/ (exists st text,
        fetch w (geckoUrl req) = Responds st (Some text)
        /\ ok st = false /\ buildable st = false).

Definition hard_failure : Response :=
  mkResponse error_body 500
    [ ("Content-Type", "application/json"); ("Access-Control-Allow-Origin", "*") ].

(** The paths through the handler, each with what it returns. *)
Inductive Path (w : World) (req : Request) (c : Cache) : Served -> Prop :=
| CACHE_HIT d :
    cache_hit w c (cacheKey req) = Some d ->
    Path w req c (mkServed (mkResponse d 200 (common_headers swr "HIT")) c [])
| RATE_LIMIT_FALLBACK d text :
    cache_hit w c (cacheKey req) = None ->
    fetch w (geckoUrl req) = Responds 429 text ->
    cached_for c (cacheKey req) = Some d ->
    Path w req c
      (mkServed (mkResponse d 200 (common_headers swr "STALE")) c [geckoUrl req])
| UPSTREAM_PASS st text :
    cache_hit w c (cacheKey req) = None ->
    fetch w (geckoUrl req) = Responds st (Some text) ->
    st <> 429%Z \/ cached_for c (cacheKey req) = None ->
    buildable st = true ->
    Path w req c
      (mkServed (mkResponse text st (common_headers swr "MISS"))
         (if ok st then stored w (cacheKey req) text else c) [geckoUrl req])
| ERROR_FALLBACK d :
    cache_hit w c (cacheKey req) = None ->
    thrown_before_store w req ->
    cached_for c (cacheKey req) = Some d ->
    Path w req c
      (mkServed (mkResponse d 200 (common_headers "public, max-age=120" "ERROR-FALLBACK"))
         c [geckoUrl req])
| HARD_FAILURE :
    cache_hit w c (cacheKey req) = None ->
    thrown_before_store w req \/ fetch w (geckoUrl req) = Responds 429 None ->
    cached_for c (cacheKey req) = None ->
    Path w req c (mkServed hard_failure c [geckoUrl req])
| STORED_THEN_THROWN st :
    cache_hit w c (cacheKey req) = None ->
    fetch w (geckoUrl req) = Responds st (Some EmptyString) ->
    ok st = true ->
    null_body_status st = true ->
    Path w req c
      (mkServed hard_failure (stored w (cacheKey req) EmptyString) [geckoUrl req]).

End Spec.

Module Samples.

Import JS CoinGecko.

Definition req_btc_eth : Request :=
  {| req_path := "/api/coingecko";
     req_query := [("ids", "bitcoin,ethereum"); ("vs_currencies", "usd")];
     req_fragment := EmptyString;
     req_method := "GET";
     req_headers := [("Accept", "application/json")] |}.

(** The same three parameters among other ones, on another path, with
    other headers. *)
Definition req_btc_eth_noisy : Request :=
  {| req_path := "/v2/prices";
     req_query := [("utm", "x"); ("ids", "bitcoin,ethereum"); ("ids", "dogecoin");
                   ("vs_currencies", "usd"); ("callback", "alert(1)")];
     req_fragment := "top";
     req_method := "POST";
     req_headers := [("Cookie", "a=b"); ("X-Forwarded-For", "10.0.0.1")] |}.

(** A body as the price endpoint sends it. *)
Definition payload_btc : string :=
  "{" ++ dq ++ "bitcoin" ++ dq ++ ":{" ++ dq ++ "usd" ++ dq ++ ":50000}}".

Definition world_ok (t : Z) : World :=
  {| now_check := t; network := fun _ => Responds 200 (Some payload_btc); now_store := t + 1 |}.

(** A 200 whose body is empty. *)
Definition world_empty_ok (t : Z) : World :=
  {| now_check := t; network := fun _ => Responds 200 (Some EmptyString); now_store := t + 1 |}.

Definition world_429 (t : Z) : World :=
  {| now_check := t; network := fun _ => Responds 429 (Some "Too Many Requests");
     now_store := t + 1 |}.

Definition world_503 (t : Z) : World :=
  {| now_check := t; network := fun _ => Responds 503 (Some "Service Unavailable");
     now_store := t + 1 |}.

Definition world_404 (t : Z) : World :=
  {| now_check := t; network := fun _ => Responds 404 (Some "Not Found");
     now_store := t + 1 |}.

Definition world_down (t : Z) : World :=
  {| now_check := t; network := fun _ => FetchRejects; now_store := t + 1 |}.

(** A 204 No Content. *)
Definition world_204 (t : Z) : World :=
  {| now_check := t; network := fun _ => Responds 204 (Some EmptyString);
     now_store := t + 1 |}.

(** A 304 Not Modified. *)
Definition world_304 (t : Z) : World :=
  {| now_check := t; network := fun _ => Responds 304 (Some EmptyString);
     now_store := t + 1 |}.

(** The cache after a first successful request at time 1000. *)
Definition cache_btc : Cache :=
  cache_after (handler (world_ok 1000) req_btc_eth initial_cache).

(** The cache after a first request answered by an empty 200. *)
Definition cache_empty_body : Cache :=
  cache_after (handler (world_empty_ok 1000) req_btc_eth initial_cache).

End Samples.

Module MarketSpec.

Import Market.

(** A number that is neither a zero, nor an infinity, nor NaN. *)
Definition finite_nonzero (x : float) : bool :=
  match classify x with
  | PNormal | NNormal | PSubn | NSubn => true
  | _ => false
  end.

(** A previous-close field the fetcher uses: present, and a number that is
    neither a zero nor NaN. *)
Definition usable (field : option float) : bool :=
  match field with
  | Some x => Market.truthy_num x
  | None => false
  end.

End MarketSpec.

Module MarketSamples.

Import Market.

(** The quote Finnhub sends for a symbol it does not know. *)
Definition unknown_symbol_quote : FinnhubData :=
  {| c := 0; d := 0; dp := 0; h := 0; l := 0; o := 0; pc := 0; t := 0 |}.

Definition aapl_quote : FinnhubData :=
  {| c := 189.5; d := 1.5; dp := 0.75; h := 190.25; l := 187;
     o := 188; pc := 188; t := 1700000000 |}.

Definition finnhub_answers (st : Z) (q : option FinnhubData)
  : string -> Upstream FinnhubData := fun _ => Responds st q.

Definition finnhub_down : string -> Upstream FinnhubData := fun _ => FetchRejects.

Definition chart_of (m : YahooMeta) : YahooChartResponse :=
  {| chart_result :=
       [ {| meta := m;
            indicators :=
              Some {| quote := Some [ {| close := Some [Some 1%float; None; Some 2%float] |} ] |}
         |} ] |}.

Definition yahoo_answers (m : YahooMeta) : string -> Upstream YahooChartResponse :=
  fun _ => Responds 200 (Some (chart_of m)).

(** A price of 110 beside a zero [chartPreviousClose] and a
    [previousClose] of 100. *)
Definition meta_zero_chart_close : YahooMeta :=
  {| regularMarketPrice := 110; chartPreviousClose := Some 0%float;
     previousClose := Some 100%float |}.

(** A price with neither previous-close field. *)
Definition meta_price_only (p : float) : YahooMeta :=
  {| regularMarketPrice := p; chartPreviousClose := None; previousClose := None |}.

End MarketSamples.

(* ====================================================================== *)
(** * Further vocabulary: characters, sessions, and their samples *)
(* ====================================================================== *)

Module Chars.

Import JS CoinGecko.

Definition colon : ascii := ":"%char.

(** A character of a validated parameter value: one of an identifier, or
    the comma between identifiers. *)
Definition param_char (c : ascii) : bool := coin_id_char c || Ascii.eqb c comma.

(** A character [encodeURIComponent] can put out: an unreserved one, or the
    percent sign of an escape (the hexadecimal digits are unreserved). *)
Definition encoded_char (c : ascii) : bool :=
  Market.unreserved c || Ascii.eqb c "%"%char.

(** How often a character occurs in a string. *)
Fixpoint occurrences (c : ascii) (s : string) : nat :=
  match s with
  | EmptyString => 0
  | String a r => (if Ascii.eqb a c then 1 else 0) + occurrences c r
  end.

Definition is_some {A : Type} (o : option A) : bool :=
  match o with
  | Some _ => true
  | None => false
  end.

(** The value of an upper-case hexadecimal digit. *)
Definition hex_val (c : ascii) : option N :=
  if between 48 57 c then Some (code c - 48)%N
  else if between 65 70 c then Some (code c - 55)%N
  else None.

(** One escape [%XY] at the head of a string: its byte and the rest. *)
Definition read_escape (s : string) : option (N * string) :=
  match s with
  | String p (String x (String y r)) =>
      if Ascii.eqb p "%"%char
      then match hex_val x, hex_val y with
           | Some hi, Some lo => Some (16 * hi + lo, r)%N
           | _, _ => None
           end
      else None
  | _ => None
  end.

(** The reading that undoes [Market.encode_char] at the head of a string:
    an escaped byte below 128, two escaped bytes of a code unit below 256,
    or a character standing for itself. *)
Definition decode_first (s : string) : option (ascii * string) :=
  match s with
  | EmptyString => None
  | String c r =>
      if Ascii.eqb c "%"%char
      then match read_escape s with
           | Some (b, r1) =>
               if (b <? 128)%N then Some (ascii_of_N b, r1)
               else match read_escape r1 with
                    | Some (b2, r2) =>
                        Some (ascii_of_N ((b - 192) * 64 + (b2 - 128)), r2)
                    | None => None
                    end
           | None => None
           end
      else Some (c, r)
  end.

End Chars.

Module Session.

Import JS CoinGecko Spec.

(** The module-level cache after a series of requests handled one after the
    other, each in its own world. *)
Definition final_cache (steps : list (World * Request)) (c : Cache) : Cache :=
  fold_left (fun c step => cache_after (handler (fst step) (snd step) c)) steps c.

(** A response whose body comes out of the cache. *)
Definition served_from_cache (r : Response) : Prop :=
  x_cache r = Some "HIT" \/ x_cache r = Some "STALE"
  \/ x_cache r = Some "ERROR-FALLBACK".

(** Among the requests handled so far, one went upstream for the key and
    got the text in a 2xx response. *)
Definition fetched_ok (steps : list (World * Request)) (k text : string) : Prop :=
  exists w r st,
    In (w, r) steps /\ cacheKey r = k
    /\ fetch w (geckoUrl r) = Responds st (Some text) /\ ok st = true.

(** Whatever the cache holds was fetched so. *)
Definition cache_genuine (steps : list (World * Request)) (c : Cache) : Prop :=
  forall d k, data c = Some d -> key c = Some k -> fetched_ok steps k d.

End Session.

Module MoreSamples.

Import JS CoinGecko Samples.

(** The parameters of [req_btc_eth] in capitals, with blanks. *)
Definition req_btc_eth_shouting : Request :=
  {| req_path := "/api/coingecko";
     req_query := [("ids", " Bitcoin , ETHEREUM"); ("vs_currencies", "USD");
                   ("include_24hr_change", "true")];
     req_fragment := EmptyString;
     req_method := "GET";
     req_headers := [] |}.

Definition markets_answers (st : Z) (b : option Market.MarketsBody)
  : string -> Market.Upstream Market.MarketsBody := fun _ => Market.Responds st b.

Definition btc_item : Market.CoinGeckoMarketItem :=
  {| Market.id := "bitcoin"; Market.current_price := 50000;
     Market.price_change_percentage_24h := 1.5;
     Market.sparkline_in_7d := Some [49000; 50000]%float |}.

Definition req_solana_eur : Request :=
  {| req_path := "/api/coingecko";
     req_query := [("ids", "solana"); ("vs_currencies", "eur")];
     req_fragment := EmptyString;
     req_method := "GET";
     req_headers := [] |}.

End MoreSamples.

(* ====================================================================== *)
(** * Facts about the string primitives *)
(* ====================================================================== *)

Module JSFacts.

Import JS CoinGecko Spec.

Lemma coin_id_char_not_comma (c : ascii) :
  coin_id_char c = true -> Ascii.eqb c comma = false.
Proof.
  destruct c as [b0 b1 b2 b3 b4 b5 b6 b7].
  destruct b0, b1, b2, b3, b4, b5, b6, b7; vm_compute; congruence.
Qed.

Lemma coin_id_no_comma (s : string) :
  all_chars coin_id_char s = true -> no_comma s = true.
Proof.
  unfold no_comma.
  induction s as [|c r IH]; simpl; [reflexivity|].
  intros H. apply andb_true_iff in H as [Hc Hr].
  rewrite (coin_id_char_not_comma c Hc). simpl. auto.
Qed.

Lemma split_no_comma (s : string) : no_comma s = true -> split s = [s].
Proof.
  unfold no_comma.
  induction s as [|c r IH]; simpl; [reflexivity|].
  intros H. apply andb_true_iff in H as [Hc Hr].
  apply negb_true_iff in Hc. rewrite Hc, (IH Hr). reflexivity.
Qed.

Lemma split_app_comma (x r : string) :
  no_comma x = true -> split (x ++ String comma r)%string = x :: split r.
Proof.
  unfold no_comma.
  induction x as [|c x IH]; simpl; intros H.
  - reflexivity.
  - apply andb_true_iff in H as [Hc Hx].
    apply negb_true_iff in Hc. rewrite Hc, (IH Hx). reflexivity.
Qed.

(** Splitting undoes joining when no field holds a comma. *)
Lemma split_join (fs : list string) :
  fs <> [] -> Forall (fun f => no_comma f = true) fs -> split (join fs) = fs.
Proof.
  induction fs as [|f fs IH]; [congruence|].
  intros _ HF. inversion HF as [|? ? Hf Hfs]; subst.
  destruct fs as [|g fs].
  - simpl. now apply split_no_comma.
  - change (join (f :: g :: fs)) with (f ++ String comma (join (g :: fs)))%string.
    rewrite (split_app_comma _ _ Hf), IH; [reflexivity|discriminate|assumption].
Qed.

Lemma Forall_firstn {A : Type} (P : A -> Prop) (n : nat) (xs : list A) :
  Forall P xs -> Forall P (firstn n xs).
Proof.
  intros H. revert n.
  induction H as [|x xs Hx Hxs IH]; intros [|n]; simpl; constructor; auto.
Qed.

Lemma Forall_firstn_filter {A : Type} (f : A -> bool) (n : nat) (xs : list A) :
  Forall (fun x => f x = true) (firstn n (filter f xs)).
Proof.
  apply Forall_firstn, Forall_forall.
  intros x Hx. apply filter_In in Hx. tauto.
Qed.

Lemma keep_coin_id_valid (id : string) :
  keep_coin_id id = true -> valid_coin_id id.
Proof.
  unfold keep_coin_id, valid_coin_id. intros H.
  apply andb_true_iff in H as [Hp Hl]. split; [assumption|].
  now apply Nat.leb_le.
Qed.

Lemma keep_coin_id_no_comma (id : string) :
  keep_coin_id id = true -> no_comma id = true.
Proof.
  unfold keep_coin_id, COIN_ID_PATTERN_test. intros H.
  apply andb_true_iff in H as [Hp _]. apply andb_true_iff in Hp as [_ Hc].
  now apply coin_id_no_comma.
Qed.

Lemma includes_In (xs : list string) (s : string) :
  includes xs s = true -> In s xs.
Proof.
  unfold includes. intros H. apply existsb_exists in H as [x [Hin Hx]].
  apply String.eqb_eq in Hx. now subst.
Qed.

End JSFacts.

(* ====================================================================== *)
(** * The validator *)
(* ====================================================================== *)

Module ValidatorProps.

Import JS CoinGecko Spec Samples JSFacts.

Lemma default_coin_ids_ok : ids_ok default_coin_ids.
Proof.
  unfold ids_ok. vm_compute split.
  split; [reflexivity|]. split; [simpl; lia|].
  repeat constructor.
Qed.

(** Whatever the candidates are, and so whatever [trim] and [toLowerCase]
    make of the fields, what is kept and joined is a valid [ids] value. *)
Lemma kept_ids_ok (n : nat) (xs : list string) :
  (n <= 20)%nat -> firstn n (filter keep_coin_id xs) <> [] ->
  ids_ok (join (firstn n (filter keep_coin_id xs))).
Proof.
  intros Hn Hne. unfold ids_ok.
  pose proof (Forall_firstn_filter keep_coin_id n xs) as HF.
  assert (Hs : split (join (firstn n (filter keep_coin_id xs)))
               = firstn n (filter keep_coin_id xs)).
  { apply split_join; [assumption|].
    eapply Forall_impl; [|exact HF]. apply keep_coin_id_no_comma. }
  cbv zeta. rewrite Hs. split; [reflexivity|]. split.
  - pose proof (firstn_le_length n (filter keep_coin_id xs)).
    destruct (firstn n (filter keep_coin_id xs)); [congruence|simpl in *; lia].
  - eapply Forall_impl; [|exact HF]. apply keep_coin_id_valid.
Qed.

Lemma validateCoinIds_ok (idsParam : option string) :
  ids_ok (validateCoinIds idsParam).
Proof.
  unfold validateCoinIds.
  destruct idsParam as [p|]; [|apply default_coin_ids_ok].
  destruct (negb (truthy p)); [apply default_coin_ids_ok|].
  destruct (firstn MAX_COIN_IDS _) eqn:E; [apply default_coin_ids_ok|].
  rewrite <- E. apply kept_ids_ok; [unfold MAX_COIN_IDS; lia|].
  rewrite E. discriminate.
Qed.

Lemma validateCurrency_allowed (val : option string) :
  In (validateCurrency val) ALLOWED_CURRENCIES.
Proof.
  unfold validateCurrency.
  destruct (includes ALLOWED_CURRENCIES _) eqn:E.
  - now apply includes_In.
  - simpl. auto.
Qed.

(** Hostile, empty and oversized parameters, as the validator treats them. *)
Example validateCoinIds_hostile :
  validateCoinIds (Some "bitcoin&x=1, ../etc/passwd ,<script>, Ethereum ,a b")
  = "ethereum".
Proof. reflexivity. Qed.

Example validateCoinIds_nothing_left :
  validateCoinIds (Some ",, ;drop table, ' or 1=1") = "bitcoin,ethereum,solana".
Proof. reflexivity. Qed.

Example validateCoinIds_absent_or_empty :
  validateCoinIds None = "bitcoin,ethereum,solana"
  /\ validateCoinIds (Some EmptyString) = "bitcoin,ethereum,solana".
Proof. split; reflexivity. Qed.

Example validateCoinIds_truncates :
  validateCoinIds
    (Some "c1,c2,c3,c4,c5,c6,c7,c8,c9,c10,c11,c12,c13,c14,c15,c16,c17,c18,c19,c20,c21,c22")
  = "c1,c2,c3,c4,c5,c6,c7,c8,c9,c10,c11,c12,c13,c14,c15,c16,c17,c18,c19,c20".
Proof. reflexivity. Qed.

Example validateCoinIds_drops_long_id :
  validateCoinIds
    (Some "aaaaaaaaaaaaaaaaaaaaaaaaaaaaaaaaaaaaaaaaaaaaaaaaaaa,btc")
  = "btc".
Proof. reflexivity. Qed.

Example validateCurrency_samples :
  validateCurrency (Some "EUR") = "eur"
  /\ validateCurrency (Some "usd&ids=x") = "usd"
  /\ validateCurrency None = "usd".
Proof. repeat split; reflexivity. Qed.

(** C1. Whatever the raw [ids] and [vs_currencies] parameters are (absent,
    empty, oversized, hostile), the validated ids value is the comma-join
    of between 1 and 20 identifiers, each matching [^[a-z0-9-]+$] and at
    most 50 characters long, and the validated currency is one of the 7
    allowed ones. Both validators are total functions. *)
Theorem validator_output_bounded (idsParam vsParam : option string) :
  let ids := split (validateCoinIds idsParam) in
  validateCoinIds idsParam = join ids
  /\ (1 <= List.length ids <= 20)%nat
  /\ Forall (fun id => COIN_ID_PATTERN_test id = true
                       /\ (String.length id <= 50)%nat) ids
  /\ In (validateCurrency vsParam) ALLOWED_CURRENCIES
  /\ List.length ALLOWED_CURRENCIES = 7%nat.
Proof.
  destruct (validateCoinIds_ok idsParam) as (Hj & Hn & HF).
  cbv zeta. repeat split; try assumption; try lia.
  - apply validateCurrency_allowed.
Qed.

End ValidatorProps.

(* ====================================================================== *)
(** * The request handler *)
(* ====================================================================== *)

Module HandlerProps.

Import JS CoinGecko Spec Samples.

Lemma cached_for_inv (c : Cache) (k d : string) :
  cached_for c k = Some d ->
  data c = Some d /\ truthy d = true /\ key c = Some k.
Proof.
  unfold cached_for, key_is. destruct (data c) as [d'|]; [|discriminate].
  destruct (truthy d') eqn:Ht; simpl; [|discriminate].
  destruct (key c) as [k'|]; [|discriminate].
  destruct (String.eqb k' k) eqn:Ek; [|discriminate].
  intros [= ->]. apply String.eqb_eq in Ek. subst. auto.
Qed.

Lemma cached_for_entry (c : Cache) (k d : string) :
  data c = Some d -> truthy d = true -> key c = Some k ->
  cached_for c k = Some d.
Proof.
  unfold cached_for, key_is. intros -> -> ->.
  rewrite String.eqb_refl. reflexivity.
Qed.

Lemma cached_for_no_entry (c : Cache) (k : string) :
  no_entry c k -> cached_for c k = None.
Proof.
  unfold no_entry, cached_for, key_is. intros [-> | Hk]; [reflexivity|].
  destruct (data c) as [d|]; [|reflexivity].
  destruct (key c) as [k'|]; [|now rewrite andb_false_r].
  destruct (String.eqb k' k) eqn:Ek; [|now rewrite andb_false_r].
  apply String.eqb_eq in Ek. subst. congruence.
Qed.

Lemma cache_hit_inv (w : World) (c : Cache) (k d : string) :
  cache_hit w c k = Some d ->
  cached_for c k = Some d /\ isFresh (now_check w) (timestamp c) = true.
Proof.
  unfold cache_hit. destruct (cached_for c k) as [d'|]; [|discriminate].
  destruct (isFresh _ _); [|discriminate]. intros [= ->]. auto.
Qed.

Lemma fetch_null_body (w : World) (u : string) (st : Z) (text : option string) :
  fetch w u = Responds st text -> null_body_status st = true ->
  text = Some EmptyString.
Proof.
  unfold fetch. destruct (network w u) as [|st' text']; [discriminate|].
  destruct (null_body_status st') eqn:E; intros [= <- <-]; congruence.
Qed.

Lemma ok_buildable (st : Z) :
  ok st = true -> null_body_status st = false -> buildable st = true.
Proof.
  unfold ok, buildable. intros H ->.
  apply andb_true_iff in H as [Hlo Hhi]. rewrite Hlo. simpl.
  rewrite andb_true_r. apply Z.leb_le in Hhi. apply Z.leb_le. lia.
Qed.

Lemma ok_unbuildable (st : Z) :
  ok st = true -> buildable st = false -> null_body_status st = true.
Proof.
  intros Hok Hb. destruct (null_body_status st) eqn:E; [reflexivity|].
  rewrite (ok_buildable st Hok E) in Hb. discriminate.
Qed.

(** A 2xx response with a text that is not empty can be built again. *)
Lemma fetch_truthy_buildable (w : World) (u : string) (st : Z) (text : string) :
  fetch w u = Responds st (Some text) -> ok st = true -> truthy text = true ->
  buildable st = true.
Proof.
  intros Hf Hok Ht. apply ok_buildable; [assumption|].
  destruct (null_body_status st) eqn:E; [|reflexivity].
  pose proof (fetch_null_body w u st (Some text) Hf E) as H.
  inversion H; subst. discriminate.
Qed.

Lemma on_error_stored_empty (w : World) (k : string) :
  on_error (stored w k EmptyString) k = hard_failure.
Proof. reflexivity. Qed.

Lemma handler_path (w : World) (req : Request) (c : Cache) :
  Path w req c (handler w req c).
Proof.
  unfold handler.
  destruct (cache_hit w c (cacheKey req)) as [d|] eqn:Hhit.
  { now apply CACHE_HIT. }
  destruct (fetch w (geckoUrl req)) as [|st text] eqn:Hf.
  { unfold on_error. destruct (cached_for c (cacheKey req)) as [d|] eqn:Hc.
    - apply ERROR_FALLBACK; auto. now left.
    - apply HARD_FAILURE; auto. left. now left. }
  destruct (Z.eqb_spec st 429) as [->|Hne].
  - destruct (cached_for c (cacheKey req)) as [d|] eqn:Hc.
    + eapply RATE_LIMIT_FALLBACK; eauto.
    + destruct text as [text|].
      * apply (UPSTREAM_PASS w req c 429 text); auto.
      * unfold on_error. rewrite Hc. apply HARD_FAILURE; auto.
  - destruct text as [text|].
    + unfold new_Response. destruct (buildable st) eqn:Hb.
      * apply UPSTREAM_PASS; auto.
      * destruct (ok st) eqn:Hok.
        -- pose proof (ok_unbuildable st Hok Hb) as Hnull.
           pose proof (fetch_null_body _ _ _ _ Hf Hnull) as Ht.
           inversion Ht; subst.
           change (on_error _ (cacheKey req)) with hard_failure.
           now apply (STORED_THEN_THROWN w req c st).
        -- assert (Hthrown : thrown_before_store w req).
           { right. right. exists st, text. auto. }
           unfold on_error.
           destruct (cached_for c (cacheKey req)) as [d|] eqn:Hc.
           ++ apply ERROR_FALLBACK; auto.
           ++ apply HARD_FAILURE; auto.
    + assert (Hthrown : thrown_before_store w req).
      { right. left. exists st. auto. }
      unfold on_error. destruct (cached_for c (cacheKey req)) as [d|] eqn:Hc.
      * apply ERROR_FALLBACK; auto.
      * apply HARD_FAILURE; auto.
Qed.

(** Case analysis on the path a run takes; the hypotheses about the run
    must be in the goal. *)
Ltac by_path w req c :=
  let s := fresh "s" in
  let P := fresh "P" in
  generalize (handler_path w req c); generalize (handler w req c);
  intros s P; destruct P; simpl.

Ltac same_fetch :=
  match goal with
  | H1 : fetch ?w ?u = _, H2 : fetch ?w ?u = _ |- _ =>
      rewrite H1 in H2; inversion H2; subst; clear H2
  end.

Ltac same_entry :=
  match goal with
  | H1 : cached_for ?c ?k = _, H2 : cached_for ?c ?k = _ |- _ =>
      rewrite H1 in H2; inversion H2; subst; clear H2
  end.

(** The ways something is thrown before the store, one goal for each. *)
Ltac thrown :=
  match goal with
  | H : thrown_before_store _ _ \/ _ |- _ => destruct H as [H|H]
  | _ => idtac
  end;
  match goal with
  | H : thrown_before_store _ _ |- _ =>
      destruct H as [H|[(?st & ? & H)|(?st & ?text & H & ? & ?)]]
  | _ => idtac
  end.

Lemma stored_hit (w w' : World) (k text : string) :
  truthy text = true ->
  (now_check w' - now_store w < CACHE_TTL)%Z ->
  cache_hit w' (stored w k text) k = Some text.
Proof.
  intros Ht Hfresh. unfold cache_hit.
  rewrite (cached_for_entry (stored w k text) k text) by (auto; reflexivity).
  unfold isFresh. simpl. apply Z.ltb_lt in Hfresh. now rewrite Hfresh.
Qed.

(** A call that goes upstream and gets a 2xx stores the text under the key,
    whatever becomes of the response. *)
Lemma success_is_stored (w : World) (req : Request) (c : Cache) (st : Z) (text : string) :
  called_upstream (handler w req c) ->
  fetch w (geckoUrl req) = Responds st (Some text) ->
  ok st = true ->
  cache_after (handler w req c) = stored w (cacheKey req) text.
Proof.
  intros Hcall Hf Hok. revert Hcall. unfold called_upstream.
  by_path w req c; intros Hcall; thrown; try same_fetch; try congruence.
  - discriminate Hok.
  - rewrite Hok. reflexivity.
Qed.

(** If moreover the response can be built again, it is passed on. *)
Lemma success_is_passed_on (w : World) (req : Request) (c : Cache) (st : Z) (text : string) :
  called_upstream (handler w req c) ->
  fetch w (geckoUrl req) = Responds st (Some text) ->
  ok st = true ->
  buildable st = true ->
  handler w req c
  = mkServed (mkResponse text st (common_headers swr "MISS"))
      (stored w (cacheKey req) text) [geckoUrl req].
Proof.
  intros Hcall Hf Hok Hb. revert Hcall. unfold called_upstream.
  by_path w req c; intros Hcall; thrown; try same_fetch; try congruence.
  - discriminate Hok.
  - rewrite Hok. reflexivity.
  - unfold buildable in Hb.
    match goal with N : null_body_status _ = true |- _ => rewrite N in Hb end.
    rewrite andb_false_r in Hb. discriminate.
Qed.

(** With a payload for the key in the cache, the entry is served while it
    is fresh, and the upstream is fetched once it is not. *)
Lemma entry_fresh_or_fetched (w : World) (req : Request) (c : Cache) (d : string) :
  cached_for c (cacheKey req) = Some d ->
  if isFresh (now_check w) (timestamp c)
  then handler w req c = mkServed (mkResponse d 200 (common_headers swr "HIT")) c []
  else x_cache (response (handler w req c)) <> Some "HIT"
       /\ fetched (handler w req c) = [geckoUrl req].
Proof.
  intros Hc. destruct (isFresh (now_check w) (timestamp c)) eqn:Hfr.
  - unfold handler, cache_hit. now rewrite Hc, Hfr.
  - by_path w req c; try (split; [discriminate|reflexivity]).
    apply cache_hit_inv in H as [_ H]. congruence.
Qed.

(** The scenario's cache key. *)
Example cacheKey_scenario : cacheKey req_btc_eth = "bitcoin,ethereum:usd:true".
Proof. reflexivity. Qed.

(** ** Rate limiting *)

(** C2, as the code has it. When the upstream call is made and answers
    429 while the cache holds a non-empty payload under the computed key,
    the handler returns that payload with status 200 and the marker STALE;
    it does not return a 429, and it leaves the cache as it was. *)
Theorem rate_limit_fallback (w : World) (req : Request) (cache : Cache)
    (d : string) (text : option string) :
  called_upstream (handler w req cache) ->
  fetch w (geckoUrl req) = Responds 429 text ->
  data cache = Some d -> truthy d = true -> key cache = Some (cacheKey req) ->
  let s := handler w req cache in
  body (response s) = d
  /\ status (response s) = 200%Z
  /\ status (response s) <> 429%Z
  /\ x_cache (response s) = Some "STALE"
  /\ cache_after s = cache.
Proof.
  intros Hcall Hf Hd Ht Hk.
  pose proof (cached_for_entry cache (cacheKey req) d Hd Ht Hk) as Hc.
  cbv zeta. revert Hcall. unfold called_upstream.
  by_path w req cache; intros Hcall; thrown; try same_fetch; try congruence;
    try discriminate.
  - same_entry. repeat split; try reflexivity. lia.
  - intuition congruence.
Qed.

(** A stale payload and a 429: the payload comes back with status 200. *)
Lemma rate_limit_fallback_witness :
  let s := handler (world_429 200000) req_btc_eth cache_btc in
  body (response s) = payload_btc
  /\ status (response s) = 200%Z
  /\ status (response s) <> 429%Z
  /\ x_cache (response s) = Some "STALE"
  /\ cache_after s = cache_btc.
Proof.
  apply (rate_limit_fallback (world_429 200000) req_btc_eth cache_btc
           payload_btc (Some "Too Many Requests")).
  - vm_compute. discriminate.
  - reflexivity.
  - reflexivity.
  - reflexivity.
  - reflexivity.
Defined.

(** C2 fails as stated: after a first request answered by a 200 with an
    empty body, the cache holds an entry under the key; a later request
    that the upstream answers with 429 gets that 429 back. *)
Lemma rate_limit_empty_entry_returns_429 :
  let s := handler (world_429 200000) req_btc_eth cache_empty_body in
  cache_empty_body
    = {| data := Some EmptyString; key := Some (cacheKey req_btc_eth);
         timestamp := 1001 |}
  /\ fetch (world_429 200000) (geckoUrl req_btc_eth)
     = Responds 429 (Some "Too Many Requests")
  /\ fetched s = [geckoUrl req_btc_eth]
  /\ status (response s) = 429%Z
  /\ body (response s) = "Too Many Requests"
  /\ x_cache (response s) = Some "MISS".
Proof. vm_compute. repeat split; reflexivity. Qed.

(** ** Upstream failures *)

(** C3, as the code has it. When the upstream call throws (network
    failure or timeout of [fetch], or a failed read of the body of a
    response other than 429): with a non-empty payload in the cache under
    the computed key the handler returns it with status 200 and the marker
    ERROR-FALLBACK; with no entry for the key it returns the fixed error
    payload with status 500; the cache is left as it was. A response that
    is neither 2xx nor 429 and whose status [new Response] accepts does not
    throw: its body and status are passed on under the marker MISS, and the
    cache is left as it was. *)
Theorem upstream_failure_recovery (w : World) (req : Request) (cache : Cache) :
  let s := handler w req cache in
  let k := cacheKey req in
  (call_throws (fetch w (geckoUrl req)) ->
     (forall d, called_upstream s ->
        data cache = Some d -> truthy d = true -> key cache = Some k ->
        response s
          = mkResponse d 200 (common_headers "public, max-age=120" "ERROR-FALLBACK")
        /\ cache_after s = cache)
     /\ (no_entry cache k ->
         response s = hard_failure
         /\ body (response s) = error_body
         /\ status (response s) = 500%Z
         /\ cache_after s = cache))
  /\ (forall st text, called_upstream s ->
        fetch w (geckoUrl req) = Responds st (Some text) ->
        ok st = false -> st <> 429%Z -> buildable st = true ->
        response s = mkResponse text st (common_headers swr "MISS")
        /\ cache_after s = cache).
Proof.
  cbv zeta. unfold called_upstream, call_throws.
  split; [intros Hthrow; split|].
  - intros d Hcall Hd Ht Hk.
    pose proof (cached_for_entry cache (cacheKey req) d Hd Ht Hk) as Hc.
    revert Hcall. by_path w req cache; intros Hcall;
      try (destruct Hthrow as [E|[st' [Hne E]]]; congruence); try congruence.
    same_entry. auto.
  - intros Hno. pose proof (cached_for_no_entry cache (cacheKey req) Hno) as Hc.
    by_path w req cache;
      try (destruct Hthrow as [E|[st' [Hne E]]]; congruence); try congruence.
    + apply cache_hit_inv in H as [? _]. congruence.
    + auto.
  - intros st text Hcall Hf Hok Hst Hb. revert Hcall.
    by_path w req cache; intros Hcall; thrown; try same_fetch; try congruence.
    rewrite Hok. auto.
Qed.

(** The network down with a stale payload, the network down with an empty
    cache, and a 503 with a stale payload. *)
Lemma upstream_failure_recovery_witness :
  (let s := handler (world_down 200000) req_btc_eth cache_btc in
   response s
     = mkResponse payload_btc 200 (common_headers "public, max-age=120" "ERROR-FALLBACK")
   /\ cache_after s = cache_btc)
  /\ (let s := handler (world_down 1000) req_btc_eth initial_cache in
      response s = hard_failure
      /\ body (response s) = error_body
      /\ status (response s) = 500%Z
      /\ cache_after s = initial_cache)
  /\ (let s := handler (world_503 200000) req_btc_eth cache_btc in
      response s = mkResponse "Service Unavailable" 503 (common_headers swr "MISS")
      /\ cache_after s = cache_btc).
Proof.
  split; [|split].
  - apply (proj1 (upstream_failure_recovery (world_down 200000) req_btc_eth cache_btc)).
    + left. reflexivity.
    + vm_compute. discriminate.
    + reflexivity.
    + reflexivity.
    + reflexivity.
  - apply (proj1 (upstream_failure_recovery (world_down 1000) req_btc_eth initial_cache)).
    + left. reflexivity.
    + left. reflexivity.
  - apply (proj2 (upstream_failure_recovery (world_503 200000) req_btc_eth cache_btc)).
    + vm_compute. discriminate.
    + reflexivity.
    + reflexivity.
    + lia.
    + reflexivity.
Defined.

(** C3 fails as stated for responses that are neither 2xx nor 429: with a
    stale payload in the cache a 503 is passed on instead of the payload,
    and with an empty cache a 404 is passed on instead of the fixed error
    payload and its server-error status. *)
Lemma non_2xx_response_is_passed_through :
  (let s := handler (world_503 200000) req_btc_eth cache_btc in
   cached_for cache_btc (cacheKey req_btc_eth) = Some payload_btc
   /\ fetch (world_503 200000) (geckoUrl req_btc_eth)
      = Responds 503 (Some "Service Unavailable")
   /\ fetched s = [geckoUrl req_btc_eth]
   /\ body (response s) = "Service Unavailable"
   /\ body (response s) <> payload_btc
   /\ status (response s) = 503%Z)
  /\ (let s := handler (world_404 1000) req_btc_eth initial_cache in
      fetch (world_404 1000) (geckoUrl req_btc_eth) = Responds 404 (Some "Not Found")
      /\ body (response s) = "Not Found"
      /\ body (response s) <> error_body
      /\ status (response s) = 404%Z).
Proof. vm_compute. repeat split; (reflexivity || discriminate). Qed.

(** ** Status codes *)

(** C4, as the code has it. A response under the marker MISS carries the
    status of the upstream response, whatever it is, and its body. A
    response served from the cache (markers HIT, STALE, ERROR-FALLBACK)
    has status 200. A response with no marker is the hard failure, with
    status 500, when the cache holds no payload for the key. Nothing is
    said of a run whose upstream answers a 2xx with a null body status. *)
Theorem status_by_path (w : World) (req : Request) (cache : Cache) :
  let r := response (handler w req cache) in
  (x_cache r = Some "MISS"
   /\ exists st text, fetch w (geckoUrl req) = Responds st (Some text)
                      /\ status r = st /\ body r = text)
  \/ ((x_cache r = Some "HIT" \/ x_cache r = Some "STALE"
       \/ x_cache r = Some "ERROR-FALLBACK")
      /\ status r = 200%Z
      /\ cached_for cache (cacheKey req) = Some (body r))
  \/ (x_cache r = None /\ r = hard_failure /\ status r = 500%Z
      /\ cached_for cache (cacheKey req) = None)
  \/ (called_upstream (handler w req cache)
      /\ exists st, fetch w (geckoUrl req) = Responds st (Some EmptyString)
                    /\ ok st = true /\ null_body_status st = true).
Proof.
  cbv zeta. unfold called_upstream. by_path w req cache.
  - right; left. apply cache_hit_inv in H as [H _]. auto.
  - right; left. auto.
  - left. split; [reflexivity|]. eauto.
  - right; left. auto 6.
  - right; right; left. auto.
  - right; right; right. split; [discriminate|]. eauto.
Qed.

(** C4 fails as stated on the rate-limit fallback: the upstream status is
    429 and the response has status 200. *)
Lemma fallback_status_is_not_upstream_status :
  let s := handler (world_429 200000) req_btc_eth cache_btc in
  fetch (world_429 200000) (geckoUrl req_btc_eth)
    = Responds 429 (Some "Too Many Requests")
  /\ fetched s = [geckoUrl req_btc_eth]
  /\ x_cache (response s) = Some "STALE"
  /\ body (response s) = payload_btc
  /\ status (response s) = 200%Z
  /\ status (response s) <> 429%Z.
Proof. vm_compute. repeat split; (reflexivity || discriminate). Qed.

(** ** Repeated calls *)

(** C5, as the code has it. If a call goes upstream and gets a 2xx with a
    non-empty body, it answers with that body under the marker MISS and
    stores it under the computed key; a second call with the same request,
    made less than [CACHE_TTL] after the store, goes nowhere upstream and
    answers with the same body, status 200 and the marker HIT. *)
Theorem repeated_call_hits_cache (w1 w2 : World) (req : Request) (cache : Cache)
    (st : Z) (text : string) :
  called_upstream (handler w1 req cache) ->
  fetch w1 (geckoUrl req) = Responds st (Some text) ->
  ok st = true ->
  truthy text = true ->
  (now_check w2 - now_store w1 < CACHE_TTL)%Z ->
  let s1 := handler w1 req cache in
  let s2 := handler w2 req (cache_after s1) in
  x_cache (response s1) = Some "MISS"
  /\ body (response s1) = text
  /\ cache_after s1
     = {| data := Some text; key := Some (cacheKey req); timestamp := now_store w1 |}
  /\ x_cache (response s2) = Some "HIT"
  /\ status (response s2) = 200%Z
  /\ body (response s2) = body (response s1)
  /\ fetched s2 = []
  /\ cache_after s2 = cache_after s1.
Proof.
  intros Hcall Hf Hok Ht Hfresh. cbv zeta.
  rewrite (success_is_passed_on w1 req cache st text Hcall Hf Hok
             (fetch_truthy_buildable _ _ _ _ Hf Hok Ht)).
  simpl.
  assert (H2 : handler w2 req (stored w1 (cacheKey req) text)
               = mkServed (mkResponse text 200 (common_headers swr "HIT"))
                   (stored w1 (cacheKey req) text) []).
  { unfold handler. now rewrite (stored_hit w1 w2 (cacheKey req) text Ht Hfresh). }
  rewrite H2. simpl.
  repeat split; reflexivity.
Qed.

(** The scenario: a cold first call at time 1000, and a second call 119999
    ms after the store, answered from the cache with the network down. *)
Lemma repeated_call_hits_cache_witness :
  let s1 := handler (world_ok 1000) req_btc_eth initial_cache in
  let s2 := handler (world_down 121000) req_btc_eth (cache_after s1) in
  x_cache (response s1) = Some "MISS"
  /\ body (response s1) = payload_btc
  /\ cache_after s1
     = {| data := Some payload_btc; key := Some (cacheKey req_btc_eth);
          timestamp := 1001 |}
  /\ x_cache (response s2) = Some "HIT"
  /\ status (response s2) = 200%Z
  /\ body (response s2) = body (response s1)
  /\ fetched s2 = []
  /\ cache_after s2 = cache_after s1.
Proof.
  apply (repeated_call_hits_cache (world_ok 1000) (world_down 121000)
           req_btc_eth initial_cache 200 payload_btc).
  - vm_compute. discriminate.
  - reflexivity.
  - reflexivity.
  - reflexivity.
  - vm_compute. reflexivity.
Defined.

(** C5 fails as stated when the successful first call has an empty body:
    one millisecond after the store the same request goes upstream again
    and is answered under the marker MISS with another body. *)
Lemma repeated_call_after_empty_body_misses :
  let s1 := handler (world_empty_ok 1000) req_btc_eth initial_cache in
  let s2 := handler (world_ok 1002) req_btc_eth (cache_after s1) in
  fetch (world_empty_ok 1000) (geckoUrl req_btc_eth) = Responds 200 (Some EmptyString)
  /\ ok 200 = true
  /\ fetched s1 = [geckoUrl req_btc_eth]
  /\ status (response s1) = 200%Z
  /\ cache_after s1
     = {| data := Some EmptyString; key := Some "bitcoin,ethereum:usd:true";
          timestamp := 1001 |}
  /\ isFresh (now_check (world_ok 1002)) (timestamp (cache_after s1)) = true
  /\ x_cache (response s2) = Some "MISS"
  /\ fetched s2 = [geckoUrl req_btc_eth]
  /\ body (response s2) = payload_btc
  /\ body (response s2) <> body (response s1).
Proof. vm_compute. repeat split; (reflexivity || discriminate). Qed.

(** ** Freshness *)

(** C6. An entry the handler can serve for a request, captured at [T], is
    considered fresh exactly when [now - T < 120 * 1000] milliseconds: the
    handler answers from it under HIT at every such time, in particular at
    [T + ttl - eps], and goes upstream at [T + ttl] and at [T + ttl + eps],
    for every positive [eps]. *)
Theorem freshness_boundary (req : Request) (cache : Cache) (d : string) (eps : Z) :
  (0 < eps)%Z ->
  cached_for cache (cacheKey req) = Some d ->
  let T := timestamp cache in
  CACHE_TTL = 120000%Z
  /\ (forall now, isFresh now T = true <-> (now - T < 120000)%Z)
  /\ (forall w, x_cache (response (handler w req cache)) = Some "HIT"
                <-> (now_check w - T < 120000)%Z)
  /\ (forall w, now_check w = (T + CACHE_TTL - eps)%Z ->
        x_cache (response (handler w req cache)) = Some "HIT"
        /\ body (response (handler w req cache)) = d
        /\ fetched (handler w req cache) = [])
  /\ (forall w, now_check w = (T + CACHE_TTL + eps)%Z ->
        x_cache (response (handler w req cache)) <> Some "HIT"
        /\ fetched (handler w req cache) = [geckoUrl req])
  /\ (forall w, now_check w = (T + CACHE_TTL)%Z ->
        x_cache (response (handler w req cache)) <> Some "HIT"
        /\ fetched (handler w req cache) = [geckoUrl req]).
Proof.
  intros Heps Hc. cbv zeta.
  assert (Httl : CACHE_TTL = 120000%Z) by reflexivity.
  assert (Hfr : forall now, isFresh now (timestamp cache) = true
                            <-> (now - timestamp cache < 120000)%Z).
  { intros now. unfold isFresh. rewrite Httl. apply Z.ltb_lt. }
  assert (Hstale : forall w, (120000 <= now_check w - timestamp cache)%Z ->
            x_cache (response (handler w req cache)) <> Some "HIT"
            /\ fetched (handler w req cache) = [geckoUrl req]).
  { intros w Hw. pose proof (entry_fresh_or_fetched w req cache d Hc) as H.
    destruct (isFresh (now_check w) (timestamp cache)) eqn:E; [|exact H].
    apply Hfr in E. lia. }
  assert (Hfresh : forall w, (now_check w - timestamp cache < 120000)%Z ->
            handler w req cache
            = mkServed (mkResponse d 200 (common_headers swr "HIT")) cache []).
  { intros w Hw. pose proof (entry_fresh_or_fetched w req cache d Hc) as H.
    apply Hfr in Hw. now rewrite Hw in H. }
  split; [exact Httl|]. split; [exact Hfr|]. split; [|split; [|split]].
  - intros w. split.
    + intros Hhit.
      destruct (Z.lt_ge_cases (now_check w - timestamp cache) 120000) as [?|Hge];
        [assumption|].
      destruct (Hstale w Hge) as [Hno _]. contradiction.
    + intros Hw. now rewrite (Hfresh w Hw).
  - intros w Hw. rewrite (Hfresh w) by lia. repeat split.
  - intros w Hw. apply Hstale. lia.
  - intros w Hw. apply Hstale. lia.
Qed.

(** The entry of the first successful request, captured at 1001, one
    millisecond around the boundary. *)
Lemma freshness_boundary_witness :
  let T := timestamp cache_btc in
  CACHE_TTL = 120000%Z
  /\ (forall now, isFresh now T = true <-> (now - T < 120000)%Z)
  /\ (forall w, x_cache (response (handler w req_btc_eth cache_btc)) = Some "HIT"
                <-> (now_check w - T < 120000)%Z)
  /\ (forall w, now_check w = (T + CACHE_TTL - 1)%Z ->
        x_cache (response (handler w req_btc_eth cache_btc)) = Some "HIT"
        /\ body (response (handler w req_btc_eth cache_btc)) = payload_btc
        /\ fetched (handler w req_btc_eth cache_btc) = [])
  /\ (forall w, now_check w = (T + CACHE_TTL + 1)%Z ->
        x_cache (response (handler w req_btc_eth cache_btc)) <> Some "HIT"
        /\ fetched (handler w req_btc_eth cache_btc) = [geckoUrl req_btc_eth])
  /\ (forall w, now_check w = (T + CACHE_TTL)%Z ->
        x_cache (response (handler w req_btc_eth cache_btc)) <> Some "HIT"
        /\ fetched (handler w req_btc_eth cache_btc) = [geckoUrl req_btc_eth]).
Proof.
  apply (freshness_boundary req_btc_eth cache_btc payload_btc 1).
  - lia.
  - reflexivity.
Defined.

(** The handler serves from the cache without going upstream exactly when
    the cache holds a non-empty payload under the key and it is fresh. *)
Lemma hit_iff_fresh_entry (w : World) (req : Request) (cache : Cache) :
  x_cache (response (handler w req cache)) = Some "HIT"
  <-> exists d, cached_for cache (cacheKey req) = Some d
                /\ isFresh (now_check w) (timestamp cache) = true.
Proof.
  split.
  - by_path w req cache; try discriminate.
    intros _. apply cache_hit_inv in H. eauto.
  - intros [d [Hc Hfr]]. unfold handler, cache_hit. rewrite Hc, Hfr. reflexivity.
Qed.

(** ** Writes to the cache *)

(** C7 does not hold of the code at an upstream 204: with a stale payload
    in the cache, the handler reads the empty text, stores it over the
    payload because the status is a 2xx, fails to build the response with
    status 204, and answers from the [catch] block with the hard failure:
    a run that ends in the hard failure has changed the cache. *)
Lemma no_content_is_stored_then_answered_500 :
  let s := handler (world_204 200000) req_btc_eth cache_btc in
  cached_for cache_btc (cacheKey req_btc_eth) = Some payload_btc
  /\ fetch (world_204 200000) (geckoUrl req_btc_eth) = Responds 204 (Some EmptyString)
  /\ ok 204 = true
  /\ new_Response EmptyString 204 (common_headers swr "MISS") = None
  /\ fetched s = [geckoUrl req_btc_eth]
  /\ response s = hard_failure
  /\ status (response s) = 500%Z
  /\ x_cache (response s) = None
  /\ cache_after s
     = {| data := Some EmptyString; key := Some (cacheKey req_btc_eth);
          timestamp := 200001 |}
  /\ cache_after s <> cache_btc.
Proof. vm_compute. repeat split; (reflexivity || discriminate). Qed.

End HandlerProps.

(* ====================================================================== *)
(** * Requests that agree on the three parameters *)
(* ====================================================================== *)

Module RequestProps.

Import JS CoinGecko Spec Samples.

(** C10. Two requests whose [ids], [vs_currencies] and
    [include_24hr_change] parameters are equal get the same validated
    values, the same cache key and the same upstream URL, and the handler
    does the same on both, whatever their other parameters, paths,
    fragments, methods and headers are. *)
Theorem same_params_same_key (r1 r2 : Request) :
  searchParams_get "ids" (req_query r1) = searchParams_get "ids" (req_query r2) ->
  searchParams_get "vs_currencies" (req_query r1)
    = searchParams_get "vs_currencies" (req_query r2) ->
  searchParams_get "include_24hr_change" (req_query r1)
    = searchParams_get "include_24hr_change" (req_query r2) ->
  validated r1 = validated r2
  /\ cacheKey r1 = cacheKey r2
  /\ geckoUrl r1 = geckoUrl r2
  /\ forall w cache, handler w r1 cache = handler w r2 cache.
Proof.
  intros Hids Hvs Hinc.
  assert (Hv : validated r1 = validated r2).
  { unfold validated. now rewrite Hids, Hvs, Hinc. }
  assert (Hk : cacheKey r1 = cacheKey r2) by (unfold cacheKey; now rewrite Hv).
  assert (Hu : geckoUrl r1 = geckoUrl r2) by (unfold geckoUrl; now rewrite Hv).
  repeat split; try assumption.
  intros w cache. unfold handler. now rewrite Hk, Hu.
Qed.

(** Two requests that differ in everything but the three parameters. *)
Lemma same_params_same_key_witness :
  validated req_btc_eth = validated req_btc_eth_noisy
  /\ cacheKey req_btc_eth = cacheKey req_btc_eth_noisy
  /\ geckoUrl req_btc_eth = geckoUrl req_btc_eth_noisy
  /\ forall w cache, handler w req_btc_eth cache = handler w req_btc_eth_noisy cache.
Proof.
  apply (same_params_same_key req_btc_eth req_btc_eth_noisy); reflexivity.
Defined.

End RequestProps.

(* ====================================================================== *)
(** * The quote fetchers *)
(* ====================================================================== *)

Module MarketProps.

Import JS Market MarketSpec MarketSamples.

(** ** Finnhub *)

(** C8. For every symbol and key: a 2xx quote whose [c], [h] and [l] are
    all zero gives [null]; a 2xx quote where one of them is not zero gives
    the symbol with [c] as price and [dp] as change; a status outside 2xx,
    a rejected fetch (network failure, timeout) and a body that does not
    parse give [null]. The fetcher is a total function: nothing is
    thrown. *)
Theorem finnhub_quote_cases (fetch : string -> Upstream FinnhubData)
    (symbol apiKey : string) :
  let r := fetchFinnhubQuote fetch symbol apiKey in
  let u := fetch (finnhubUrl symbol apiKey) in
  (forall st data, u = Responds st (Some data) -> ok st = true ->
     is_zero (c data) = true -> is_zero (h data) = true -> is_zero (l data) = true ->
     r = None)
  /\ (forall st data, u = Responds st (Some data) -> ok st = true ->
        is_zero (c data) && is_zero (h data) && is_zero (l data) = false ->
        r = Some {| symbol := symbol; price := c data; changePercent := dp data |})
  /\ (forall st json, u = Responds st json -> ok st = false -> r = None)
  /\ (u = FetchRejects -> r = None)
  /\ (forall st, u = Responds st None -> r = None).
Proof.
  cbv zeta. unfold fetchFinnhubQuote. repeat split.
  - intros st data -> -> -> -> ->. reflexivity.
  - intros st data -> -> ->. reflexivity.
  - intros st json -> ->. reflexivity.
  - intros ->. reflexivity.
  - intros st ->. destruct (ok st); reflexivity.
Qed.

(** An all-zero quote, a real quote, a 503, a dead network and a body that
    does not parse. *)
Lemma finnhub_quote_cases_witness :
  fetchFinnhubQuote (finnhub_answers 200 (Some unknown_symbol_quote)) "NOPE" "key" = None
  /\ fetchFinnhubQuote (finnhub_answers 200 (Some aapl_quote)) "AAPL" "key"
     = Some {| symbol := "AAPL"; price := 189.5; changePercent := 0.75 |}
  /\ fetchFinnhubQuote (finnhub_answers 503 (Some aapl_quote)) "AAPL" "key" = None
  /\ fetchFinnhubQuote finnhub_down "AAPL" "key" = None
  /\ fetchFinnhubQuote (finnhub_answers 200 None) "AAPL" "key" = None.
Proof.
  split; [|split; [|split; [|split]]].
  - apply (proj1 (finnhub_quote_cases
                    (finnhub_answers 200 (Some unknown_symbol_quote)) "NOPE" "key")
             200%Z unknown_symbol_quote); reflexivity.
  - apply (proj1 (proj2 (finnhub_quote_cases
                           (finnhub_answers 200 (Some aapl_quote)) "AAPL" "key"))
             200%Z aapl_quote); reflexivity.
  - apply (proj1 (proj2 (proj2 (finnhub_quote_cases
                                  (finnhub_answers 503 (Some aapl_quote)) "AAPL" "key")))
             503%Z (Some aapl_quote)); reflexivity.
  - apply (proj1 (proj2 (proj2 (proj2 (finnhub_quote_cases
                                         finnhub_down "AAPL" "key"))))); reflexivity.
  - apply (proj2 (proj2 (proj2 (proj2 (finnhub_quote_cases
                                         (finnhub_answers 200 None) "AAPL" "key"))))
             200%Z); reflexivity.
Defined.

(** ** Yahoo *)

Lemma finite_nonzero_spec (x : float) :
  finite_nonzero x = true -> exists s m e, Prim2SF x = S754_finite s m e.
Proof.
  unfold finite_nonzero. rewrite classify_spec.
  destruct (Prim2SF x) as [s|s| |s m e]; simpl.
  - destruct s; discriminate.
  - destruct s; discriminate.
  - discriminate.
  - eauto.
Qed.

(** A finite number minus itself is the positive zero. *)
Lemma SF64sub_diag (s : bool) (m : positive) (e : Z) :
  SF64sub (S754_finite s m e) (S754_finite s m e) = S754_zero false.
Proof.
  assert (D : forall x, IntDef.Z.sub x x = Z0) by exact Z.sub_diag.
  unfold SF64sub, SFsub, shl_align. cbv zeta.
  rewrite Z.min_id, (D e). cbv iota beta. unfold fst.
  rewrite D. reflexivity.
Qed.

(** With the price as its own previous close the change is a zero. *)
Lemma change_of_self (p : float) :
  finite_nonzero p = true -> is_zero (change_of p p) = true.
Proof.
  intros H. destruct (finite_nonzero_spec p H) as (s & m & e & E).
  unfold is_zero, change_of.
  rewrite FloatAxioms.eqb_spec, FloatAxioms.mul_spec, FloatAxioms.div_spec,
    FloatAxioms.sub_spec, E, SF64sub_diag.
  unfold SF64div, SFdiv.
  replace (Prim2SF 100) with (S754_finite false 7036874417766400 (-46))
    by (vm_compute; reflexivity).
  replace (Prim2SF 0) with (S754_zero false) by (vm_compute; reflexivity).
  destruct s; reflexivity.
Qed.

Lemma or_num_truthy (a : option float) (b : float) :
  truthy_num b = true -> truthy_num (or_num a b) = true.
Proof.
  intros Hb. unfold or_num. destruct a as [x|]; [|assumption].
  destruct (truthy_num x) eqn:Hx; assumption.
Qed.

(** C9, as the code has it. On a 2xx answer with a first result the
    fetcher returns the price and, as change,
    [(price - prevClose) / prevClose * 100], where [prevClose] is
    [chartPreviousClose] when that is present and a non-zero number, else
    [previousClose] when that is present and a non-zero number, else the
    price: a field that is absent, zero or NaN is passed over. When the
    price is a non-zero number so is [prevClose]; when neither field is
    used and the price is finite and not zero, the change is zero. *)
Theorem yahoo_percent_change (fetch : string -> Upstream YahooChartResponse)
    (symbol : string) (st : Z) (data : YahooChartResponse)
    (result : YahooResult) (rest : list YahooResult) :
  fetch (yahooUrl symbol) = Responds st (Some data) ->
  ok st = true ->
  chart_result data = result :: rest ->
  let m := meta result in
  let price := regularMarketPrice m in
  let prevClose := prevClose_of m in
  fetchYahooQuote fetch symbol
    = Some {| yprice := price;
              change := (((price - prevClose) / prevClose) * 100)%float;
              sparkline := sparkline_of result |}
  /\ (forall x, chartPreviousClose m = Some x -> truthy_num x = true -> prevClose = x)
  /\ (forall y, usable (chartPreviousClose m) = false ->
                previousClose m = Some y -> truthy_num y = true -> prevClose = y)
  /\ (usable (chartPreviousClose m) = false -> usable (previousClose m) = false ->
      prevClose = price)
  /\ (truthy_num price = true -> truthy_num prevClose = true)
  /\ (usable (chartPreviousClose m) = false -> usable (previousClose m) = false ->
      finite_nonzero price = true ->
      is_zero (((price - prevClose) / prevClose) * 100)%float = true).
Proof.
  intros Hf Hok Hres. cbv zeta.
  unfold fetchYahooQuote. rewrite Hf, Hok, Hres. simpl.
  split; [reflexivity|].
  assert (Hskip : forall field rest',
            usable field = false -> or_num field rest' = rest').
  { intros [x|] rest' H; simpl in *; [now rewrite H|reflexivity]. }
  unfold prevClose_of. repeat split.
  - intros x -> Hx. simpl. now rewrite Hx.
  - intros y Hc -> Hy. rewrite (Hskip _ _ Hc). simpl. now rewrite Hy.
  - intros Hc Hp. now rewrite (Hskip _ _ Hc), (Hskip _ _ Hp).
  - intros Hp. now apply or_num_truthy, or_num_truthy.
  - intros Hc Hp Hfin. rewrite (Hskip _ _ Hc), (Hskip _ _ Hp).
    now apply change_of_self.
Qed.

(** A price of 4500.25 with neither previous-close field: no change. A
    price of 110 with a zero [chartPreviousClose] and a [previousClose] of
    100: the second field is the denominator, and the change is 10. *)
Lemma yahoo_percent_change_witness :
  (fetchYahooQuote (yahoo_answers (meta_price_only 4500.25)) "^GSPC"
     = Some {| yprice := 4500.25; change := 0; sparkline := [1; 2]%float |}
   /\ is_zero (((4500.25 - 4500.25) / 4500.25) * 100)%float = true)
  /\ (fetchYahooQuote (yahoo_answers meta_zero_chart_close) "^GSPC"
        = Some {| yprice := 110; change := 10; sparkline := [1; 2]%float |}
      /\ prevClose_of meta_zero_chart_close = 100%float).
Proof.
  split.
  - pose proof (yahoo_percent_change (yahoo_answers (meta_price_only 4500.25)) "^GSPC"
                  200%Z (chart_of (meta_price_only 4500.25))
                  {| meta := meta_price_only 4500.25;
                     indicators :=
                       Some {| quote := Some [ {| close := Some [Some 1%float; None; Some 2%float] |} ] |} |}
                  [] eq_refl eq_refl eq_refl) as H.
    cbv zeta in H. destruct H as (Hq & _ & _ & _ & _ & Hz).
    split.
    + rewrite Hq. vm_compute. reflexivity.
    + apply Hz; reflexivity.
  - pose proof (yahoo_percent_change (yahoo_answers meta_zero_chart_close) "^GSPC"
                  200%Z (chart_of meta_zero_chart_close)
                  {| meta := meta_zero_chart_close;
                     indicators :=
                       Some {| quote := Some [ {| close := Some [Some 1%float; None; Some 2%float] |} ] |} |}
                  [] eq_refl eq_refl eq_refl) as H.
    cbv zeta in H. destruct H as (Hq & _ & Hy & _ & _ & _).
    split.
    + rewrite Hq. vm_compute. reflexivity.
    + apply (Hy 100%float); reflexivity.
Defined.

(** C9 fails as stated at a price of zero with both fields absent: the
    denominator is that zero and the change is NaN, not zero. *)
Lemma zero_price_change_is_nan :
  fetchYahooQuote (yahoo_answers (meta_price_only 0)) "^GSPC"
    = Some {| yprice := 0; change := nan; sparkline := [1; 2]%float |}
  /\ prevClose_of (meta_price_only 0) = 0%float
  /\ PrimFloat.is_nan (change_of 0 (prevClose_of (meta_price_only 0))) = true
  /\ is_zero (change_of 0 (prevClose_of (meta_price_only 0))) = false.
Proof. vm_compute. repeat split; reflexivity. Qed.

End MarketProps.

(* ====================================================================== *)
(** * Characters and strings, continued *)
(* ====================================================================== *)

Module CharFacts.

Import JS CoinGecko Spec Chars JSFacts.

(** Checking a property of every character: one case per code unit. *)
Ltac every_char c :=
  let b0 := fresh "b" in let b1 := fresh "b" in let b2 := fresh "b" in
  let b3 := fresh "b" in let b4 := fresh "b" in let b5 := fresh "b" in
  let b6 := fresh "b" in let b7 := fresh "b" in
  destruct c as [b0 b1 b2 b3 b4 b5 b6 b7];
  destruct b0, b1, b2, b3, b4, b5, b6, b7; vm_compute; congruence.

Lemma lower_char_idem (c : ascii) : lower_char (lower_char c) = lower_char c.
Proof. every_char c. Qed.

Lemma lower_char_comma (c : ascii) :
  Ascii.eqb (lower_char c) comma = Ascii.eqb c comma.
Proof. every_char c. Qed.

Lemma lower_char_space (c : ascii) : is_space (lower_char c) = is_space c.
Proof. every_char c. Qed.

Lemma coin_id_char_lower (c : ascii) : coin_id_char c = true -> lower_char c = c.
Proof. every_char c. Qed.

Lemma coin_id_char_not_space (c : ascii) : coin_id_char c = true -> is_space c = false.
Proof. every_char c. Qed.

Lemma all_chars_app (p : ascii -> bool) (a b : string) :
  all_chars p (a ++ b) = all_chars p a && all_chars p b.
Proof.
  induction a as [|c a IH]; simpl; [reflexivity|].
  rewrite IH. apply andb_assoc.
Qed.

Lemma all_chars_impl (p q : ascii -> bool) (s : string) :
  (forall c, p c = true -> q c = true) ->
  all_chars p s = true -> all_chars q s = true.
Proof.
  intros Hpq. induction s as [|c r IH]; simpl; [reflexivity|].
  intros H. apply andb_true_iff in H as [Hc Hr].
  rewrite (Hpq c Hc). simpl. auto.
Qed.

Lemma all_chars_join (p : ascii -> bool) (fs : list string) :
  p comma = true ->
  Forall (fun f => all_chars p f = true) fs -> all_chars p (join fs) = true.
Proof.
  intros Hc HF. induction HF as [|f fs Hf Hfs IH]; [reflexivity|].
  destruct fs as [|g fs]; [exact Hf|].
  change (join (f :: g :: fs)) with (f ++ String comma (join (g :: fs)))%string.
  rewrite all_chars_app, Hf. simpl. rewrite Hc. exact IH.
Qed.

Lemma occurrences_app (c : ascii) (a b : string) :
  occurrences c (a ++ b) = (occurrences c a + occurrences c b)%nat.
Proof.
  induction a as [|x a IH]; simpl; [reflexivity|]. rewrite IH. lia.
Qed.

(** A character outside a class does not occur in a string of the class. *)
Lemma occurrences_outside (p : ascii -> bool) (c : ascii) (s : string) :
  p c = false -> all_chars p s = true -> occurrences c s = 0%nat.
Proof.
  intros Hc. induction s as [|a r IH]; simpl; [reflexivity|].
  intros H. apply andb_true_iff in H as [Ha Hr].
  destruct (Ascii.eqb a c) eqn:E.
  - apply Ascii.eqb_eq in E. congruence.
  - simpl. auto.
Qed.

(** A string is cut in one way only at the first occurrence of a character. *)
Lemma cut_at_first (c : ascii) (a a' b b' : string) :
  occurrences c a = 0%nat -> occurrences c a' = 0%nat ->
  (a ++ String c b)%string = (a' ++ String c b')%string ->
  a = a' /\ b = b'.
Proof.
  revert a'. induction a as [|x a IH]; intros [|x' a']; simpl; intros Ha Ha' E.
  - inversion E. auto.
  - inversion E; subst. rewrite Ascii.eqb_refl in Ha'. discriminate.
  - inversion E; subst. rewrite Ascii.eqb_refl in Ha. discriminate.
  - inversion E; subst.
    destruct (Ascii.eqb x' c); [discriminate|]. simpl in Ha, Ha'.
    destruct (IH a' Ha Ha' H1) as [-> ->]. auto.
Qed.

Lemma toLowerCase_idem (s : string) : toLowerCase (toLowerCase s) = toLowerCase s.
Proof.
  induction s as [|c r IH]; simpl; [reflexivity|].
  now rewrite lower_char_idem, IH.
Qed.

Lemma truthy_toLowerCase (s : string) : truthy (toLowerCase s) = truthy s.
Proof. destruct s; reflexivity. Qed.

Lemma split_toLowerCase (s : string) :
  split (toLowerCase s) = map toLowerCase (split s).
Proof.
  induction s as [|c r IH]; simpl; [reflexivity|].
  rewrite lower_char_comma, IH.
  destruct (Ascii.eqb c comma); [reflexivity|].
  destruct (split r); reflexivity.
Qed.

Lemma trimStart_toLowerCase (s : string) :
  trimStart (toLowerCase s) = toLowerCase (trimStart s).
Proof.
  induction s as [|c r IH]; simpl; [reflexivity|].
  rewrite lower_char_space. destruct (is_space c); [exact IH|reflexivity].
Qed.

Lemma trimEnd_toLowerCase (s : string) :
  trimEnd (toLowerCase s) = toLowerCase (trimEnd s).
Proof.
  induction s as [|c r IH]; simpl; [reflexivity|].
  rewrite IH, lower_char_space.
  destruct (trimEnd r); simpl; [destruct (is_space c)|]; reflexivity.
Qed.

Lemma trim_toLowerCase (s : string) : trim (toLowerCase s) = toLowerCase (trim s).
Proof. unfold trim. now rewrite trimStart_toLowerCase, trimEnd_toLowerCase. Qed.

Lemma toLowerCase_coin_id (s : string) :
  all_chars coin_id_char s = true -> toLowerCase s = s.
Proof.
  induction s as [|c r IH]; simpl; [reflexivity|].
  intros H. apply andb_true_iff in H as [Hc Hr].
  now rewrite (coin_id_char_lower c Hc), (IH Hr).
Qed.

Lemma trimStart_coin_id (s : string) :
  all_chars coin_id_char s = true -> trimStart s = s.
Proof.
  destruct s as [|c r]; simpl; [reflexivity|].
  intros H. apply andb_true_iff in H as [Hc _].
  now rewrite (coin_id_char_not_space c Hc).
Qed.

Lemma trimEnd_coin_id (s : string) :
  all_chars coin_id_char s = true -> trimEnd s = s.
Proof.
  induction s as [|c r IH]; simpl; [reflexivity|].
  intros H. apply andb_true_iff in H as [Hc Hr].
  rewrite (IH Hr), (coin_id_char_not_space c Hc).
  destruct r; reflexivity.
Qed.

(** A valid identifier is left alone by [trim] and [toLowerCase], and kept. *)
Lemma valid_coin_id_fixed (id : string) :
  valid_coin_id id -> toLowerCase (trim id) = id /\ keep_coin_id id = true.
Proof.
  intros [Hp Hl]. unfold COIN_ID_PATTERN_test in Hp.
  pose proof Hp as Hp'. apply andb_true_iff in Hp' as [_ Hc].
  split.
  - unfold trim. now rewrite (trimStart_coin_id id Hc), (trimEnd_coin_id id Hc),
      (toLowerCase_coin_id id Hc).
  - unfold keep_coin_id, COIN_ID_PATTERN_test. rewrite Hp. simpl.
    now apply Nat.leb_le.
Qed.

Lemma truthy_join (f : string) (fs : list string) :
  truthy f = true -> truthy (join (f :: fs)) = true.
Proof.
  destruct f as [|c f]; [discriminate|]. intros _.
  destruct fs; reflexivity.
Qed.

End CharFacts.

(* ====================================================================== *)
(** * The validator, continued: canonical values, the URL and the key *)
(* ====================================================================== *)

Module ValidatorMore.

Import JS CoinGecko Spec Chars Samples MoreSamples JSFacts ValidatorProps CharFacts.

Lemma filter_all {A : Type} (f : A -> bool) (xs : list A) :
  Forall (fun x => f x = true) xs -> filter f xs = xs.
Proof.
  induction 1 as [|x xs Hx Hxs IH]; simpl; [reflexivity|].
  now rewrite Hx, IH.
Qed.

Lemma map_fixed {A : Type} (f : A -> A) (xs : list A) :
  Forall (fun x => f x = x) xs -> map f xs = xs.
Proof.
  induction 1 as [|x xs Hx Hxs IH]; simpl; [reflexivity|].
  now rewrite Hx, IH.
Qed.

(** A valid [ids] value validates to itself. *)
Lemma validateCoinIds_fixed (out : string) :
  ids_ok out -> validateCoinIds (Some out) = out.
Proof.
  unfold ids_ok. cbv zeta. intros (Hj & [Hlo Hhi] & HF).
  destruct (split out) as [|f fs] eqn:Hs; [simpl in Hlo; lia|].
  assert (Ht : truthy out = true).
  { rewrite Hj. apply truthy_join. inversion HF as [|? ? [Hp _] _]; subst.
    unfold COIN_ID_PATTERN_test in Hp. now apply andb_true_iff in Hp as [Hp _]. }
  unfold validateCoinIds. rewrite Ht, Hs. cbv [negb].
  rewrite map_fixed, filter_all, firstn_all2.
  - symmetry. exact Hj.
  - unfold MAX_COIN_IDS. exact Hhi.
  - eapply Forall_impl; [|exact HF]. intros id Hid. now apply valid_coin_id_fixed.
  - eapply Forall_impl; [|exact HF]. intros id Hid. now apply valid_coin_id_fixed.
Qed.

Lemma validateCurrency_fixed (cur : string) :
  In cur ALLOWED_CURRENCIES -> validateCurrency (Some cur) = cur.
Proof.
  unfold ALLOWED_CURRENCIES. simpl.
  intros [<-|[<-|[<-|[<-|[<-|[<-|[<-|[]]]]]]]]; reflexivity.
Qed.

Lemma validateBoolean_literal (val : option string) :
  validateBoolean val "true" = "true" \/ validateBoolean val "true" = "false".
Proof.
  unfold validateBoolean. destruct val as [v|]; [|now left].
  destruct (String.eqb v "true") eqn:Et; simpl.
  - apply String.eqb_eq in Et. now left.
  - destruct (String.eqb v "false") eqn:Ef; [|now left].
    apply String.eqb_eq in Ef. now right.
Qed.

Lemma validateCoinIds_lower (p : string) :
  validateCoinIds (Some (toLowerCase p)) = validateCoinIds (Some p).
Proof.
  unfold validateCoinIds.
  rewrite truthy_toLowerCase, split_toLowerCase, map_map.
  rewrite (map_ext (fun x => toLowerCase (trim (toLowerCase x)))
                   (fun id => toLowerCase (trim id))); [reflexivity|].
  intros x. now rewrite trim_toLowerCase, toLowerCase_idem.
Qed.

Lemma validateCurrency_lower (p : string) :
  validateCurrency (Some (toLowerCase p)) = validateCurrency (Some p).
Proof.
  unfold validateCurrency, or_default. rewrite truthy_toLowerCase.
  destruct (truthy p); [|reflexivity]. now rewrite toLowerCase_idem.
Qed.

Lemma validateCoinIds_param_chars (idsParam : option string) :
  all_chars param_char (validateCoinIds idsParam) = true.
Proof.
  destruct (validateCoinIds_ok idsParam) as (Hj & _ & HF). cbv zeta in Hj.
  rewrite Hj. apply all_chars_join; [reflexivity|].
  eapply Forall_impl; [|exact HF]. intros id [Hp _].
  unfold COIN_ID_PATTERN_test in Hp. apply andb_true_iff in Hp as [_ Hc].
  eapply all_chars_impl; [|exact Hc].
  intros c Hcc. unfold param_char. now rewrite Hcc.
Qed.

Lemma validateCurrency_param_chars (vsParam : option string) :
  all_chars param_char (validateCurrency vsParam) = true.
Proof.
  pose proof (validateCurrency_allowed vsParam) as H.
  unfold ALLOWED_CURRENCIES in H. simpl in H.
  destruct H as [<-|[<-|[<-|[<-|[<-|[<-|[<-|[]]]]]]]]; reflexivity.
Qed.

Lemma validateBoolean_param_chars (incParam : option string) :
  all_chars param_char (validateBoolean incParam "true") = true.
Proof.
  destruct (validateBoolean_literal incParam) as [-> | ->]; reflexivity.
Qed.

(** Validating twice is validating once: each validated value is in the
    canonical form the validator itself accepts unchanged. *)
Theorem revalidation_is_identity (idsParam vsParam incParam : option string) :
  validateCoinIds (Some (validateCoinIds idsParam)) = validateCoinIds idsParam
  /\ validateCurrency (Some (validateCurrency vsParam)) = validateCurrency vsParam
  /\ validateBoolean (Some (validateBoolean incParam "true")) "true"
     = validateBoolean incParam "true".
Proof.
  split; [|split].
  - apply validateCoinIds_fixed, validateCoinIds_ok.
  - apply validateCurrency_fixed, validateCurrency_allowed.
  - destruct (validateBoolean_literal incParam) as [-> | ->]; reflexivity.
Qed.

(** Identifiers and currencies are matched without regard to case: two raw
    values that differ only in the case of their letters validate to the
    same value. *)
Theorem validation_ignores_case (p1 p2 : string) :
  toLowerCase p1 = toLowerCase p2 ->
  validateCoinIds (Some p1) = validateCoinIds (Some p2)
  /\ validateCurrency (Some p1) = validateCurrency (Some p2).
Proof.
  intros H. split.
  - rewrite <- (validateCoinIds_lower p1), <- (validateCoinIds_lower p2). now rewrite H.
  - rewrite <- (validateCurrency_lower p1), <- (validateCurrency_lower p2). now rewrite H.
Qed.

(** [Bitcoin,ETHEREUM] and [bitcoin,Ethereum]. *)
Lemma validation_ignores_case_witness :
  validateCoinIds (Some "Bitcoin,ETHEREUM") = validateCoinIds (Some "bitcoin,Ethereum")
  /\ validateCurrency (Some "Bitcoin,ETHEREUM")
     = validateCurrency (Some "bitcoin,Ethereum").
Proof.
  apply (validation_ignores_case "Bitcoin,ETHEREUM" "bitcoin,Ethereum").
  reflexivity.
Defined.

(** The flag, by contrast, is matched exactly. *)
Example validateBoolean_is_case_sensitive :
  validateBoolean (Some "FALSE") "true" = "true"
  /\ validateBoolean (Some "false") "true" = "false".
Proof. split; reflexivity. Qed.

Lemma param_free (x : ascii) (idsParam vsParam incParam : option string) :
  param_char x = false ->
  occurrences x (validateCoinIds idsParam) = 0%nat
  /\ occurrences x (validateCurrency vsParam) = 0%nat
  /\ occurrences x (validateBoolean incParam "true") = 0%nat.
Proof.
  intros Hx. repeat split; apply (occurrences_outside param_char); try assumption.
  - apply validateCoinIds_param_chars.
  - apply validateCurrency_param_chars.
  - apply validateBoolean_param_chars.
Qed.

Lemma geckoUrl_occurrences (x : ascii) (req : Request) :
  param_char x = false ->
  occurrences x (geckoUrl req)
  = occurrences x (geckoUrl_of EmptyString EmptyString EmptyString).
Proof.
  intros Hx. unfold geckoUrl, validated, geckoUrl_of.
  destruct (param_free x (searchParams_get "ids" (req_query req))
              (searchParams_get "vs_currencies" (req_query req))
              (searchParams_get "include_24hr_change" (req_query req)) Hx)
    as (H1 & H2 & H3).
  repeat rewrite occurrences_app. rewrite H1, H2, H3.
  change (occurrences x EmptyString) with 0%nat. lia.
Qed.

(** Whatever the request holds, the URL fetched upstream has the three
    parameters of the handler and nothing else: one question mark, two
    ampersands, three equal signs, no fragment, blank, percent sign or
    quote; the three values are made of [a-z], [0-9], [-] and [,] only. *)
Theorem upstream_url_shape (req : Request) :
  let u := geckoUrl req in
  occurrences "?" u = 1%nat
  /\ occurrences "&" u = 2%nat
  /\ occurrences "=" u = 3%nat
  /\ occurrences "#" u = 0%nat
  /\ occurrences " " u = 0%nat
  /\ occurrences "%" u = 0%nat
  /\ occurrences "'" u = 0%nat
  /\ exists ids vs inc,
       u = geckoUrl_of ids vs inc
       /\ all_chars param_char ids = true
       /\ In vs ALLOWED_CURRENCIES
       /\ (inc = "true" \/ inc = "false").
Proof.
  cbv zeta.
  repeat (split; [rewrite geckoUrl_occurrences by reflexivity; reflexivity|]).
  exists (validateCoinIds (searchParams_get "ids" (req_query req))),
         (validateCurrency (searchParams_get "vs_currencies" (req_query req))),
         (validateBoolean (searchParams_get "include_24hr_change" (req_query req)) "true").
  split; [reflexivity|]. split; [apply validateCoinIds_param_chars|].
  split; [apply validateCurrency_allowed|apply validateBoolean_literal].
Qed.

Lemma validated_key_inj (i1 v1 f1 i2 v2 f2 : string) :
  occurrences colon i1 = 0%nat -> occurrences colon i2 = 0%nat ->
  occurrences colon v1 = 0%nat -> occurrences colon v2 = 0%nat ->
  cacheKey_of i1 v1 f1 = cacheKey_of i2 v2 f2 ->
  i1 = i2 /\ v1 = v2 /\ f1 = f2.
Proof.
  intros Hi1 Hi2 Hv1 Hv2 E. unfold cacheKey_of in E.
  change (i1 ++ String colon (v1 ++ String colon f1)
          = i2 ++ String colon (v2 ++ String colon f2))%string in E.
  apply cut_at_first in E as [-> E]; try assumption.
  apply cut_at_first in E as [-> ->]; auto.
Qed.

Lemma cacheKey_inj (r1 r2 : Request) :
  cacheKey r1 = cacheKey r2 -> validated r1 = validated r2.
Proof.
  unfold cacheKey, validated. intros E.
  destruct (param_free colon (searchParams_get "ids" (req_query r1))
              (searchParams_get "vs_currencies" (req_query r1)) None eq_refl)
    as (A1 & B1 & _).
  destruct (param_free colon (searchParams_get "ids" (req_query r2))
              (searchParams_get "vs_currencies" (req_query r2)) None eq_refl)
    as (A2 & B2 & _).
  destruct (validated_key_inj _ _ _ _ _ _ A1 A2 B1 B2 E) as (-> & -> & ->).
  reflexivity.
Qed.

(** Two requests share a cache key exactly when their three validated
    values are the same: the key separates every two different queries. *)
Theorem cache_key_separates_queries (r1 r2 : Request) :
  cacheKey r1 = cacheKey r2 <-> validated r1 = validated r2.
Proof.
  split; [apply cacheKey_inj|].
  intros E. unfold cacheKey. now rewrite E.
Qed.

Lemma In_firstn {A : Type} (x : A) (n : nat) (xs : list A) :
  In x (firstn n xs) -> In x xs.
Proof.
  revert n. induction xs as [|y xs IH]; intros [|n]; simpl; try tauto.
  intros [->|H]; [now left|right; eauto].
Qed.

(** The validator invents nothing: unless it falls back to the default
    list, every identifier of the validated value is a field of the raw
    parameter, trimmed and put in lower case. *)
Theorem validated_ids_come_from_the_request (idsParam : option string) :
  validateCoinIds idsParam = default_coin_ids
  \/ exists p,
       idsParam = Some p
       /\ forall id, In id (split (validateCoinIds idsParam)) ->
            exists field, In field (split p) /\ id = toLowerCase (trim field).
Proof.
  unfold validateCoinIds. destruct idsParam as [p|]; [|now left].
  destruct (negb (truthy p)); [now left|].
  destruct (firstn MAX_COIN_IDS _) as [|i ids] eqn:E; [now left|].
  right. exists p. split; [reflexivity|]. intros id Hin.
  rewrite split_join in Hin.
  - rewrite <- E in Hin. apply In_firstn in Hin.
    apply filter_In in Hin as [Hin _]. apply in_map_iff in Hin as [f [Hf Hin]].
    exists f. auto.
  - discriminate.
  - rewrite <- E. eapply Forall_impl; [|apply Forall_firstn_filter].
    apply keep_coin_id_no_comma.
Qed.

End ValidatorMore.

(* ====================================================================== *)
(** * The request handler, continued *)
(* ====================================================================== *)

Module HandlerMore.

Import JS CoinGecko Spec Session Samples MoreSamples HandlerProps ValidatorMore.

(** A body served from the cache is what the cache holds for the key. *)
Lemma served_from_cache_body (w : World) (req : Request) (c : Cache) :
  served_from_cache (response (handler w req c)) ->
  cached_for c (cacheKey req) = Some (body (response (handler w req c))).
Proof.
  unfold served_from_cache. by_path w req c; auto;
    try (intros [?|[?|?]]; discriminate).
  intros _. now apply cache_hit_inv in H.
Qed.

Lemma fetched_ok_more (hist steps : list (World * Request)) (k text : string) :
  fetched_ok hist k text -> fetched_ok (hist ++ steps) k text.
Proof.
  intros (w & r & st & Hin & H). exists w, r, st. split; [|exact H].
  apply in_or_app. now left.
Qed.

Lemma cache_genuine_step (hist : list (World * Request)) (w : World) (r : Request)
    (c : Cache) :
  cache_genuine hist c ->
  cache_genuine (hist ++ [(w, r)]) (cache_after (handler w r c)).
Proof.
  intros Hc.
  assert (Hkeep : cache_genuine (hist ++ [(w, r)]) c).
  { intros d k Hd Hk. apply fetched_ok_more. eauto. }
  assert (Hnew : forall st text,
            fetch w (geckoUrl r) = Responds st (Some text) -> ok st = true ->
            cache_genuine (hist ++ [(w, r)]) (stored w (cacheKey r) text)).
  { intros st text Hf Hok d k Hd Hk. simpl in Hd, Hk.
    inversion Hd; inversion Hk; subst.
    exists w, r, st. repeat split; auto.
    apply in_or_app. right. now left. }
  by_path w r c; try exact Hkeep.
  - destruct (ok st) eqn:Hok; [|exact Hkeep]. now apply (Hnew st).
  - now apply (Hnew st).
Qed.

Lemma cache_genuine_run (steps hist : list (World * Request)) (c : Cache) :
  cache_genuine hist c -> cache_genuine (hist ++ steps) (final_cache steps c).
Proof.
  revert hist c. induction steps as [|[w r] steps IH]; intros hist c Hc.
  - rewrite app_nil_r. exact Hc.
  - change (final_cache ((w, r) :: steps) c)
      with (final_cache steps (cache_after (handler w r c))).
    replace (hist ++ (w, r) :: steps) with ((hist ++ [(w, r)]) ++ steps)
      by (rewrite <- app_assoc; reflexivity).
    apply IH, cache_genuine_step, Hc.
Qed.

Lemma initial_cache_genuine : cache_genuine [] initial_cache.
Proof. intros d k Hd. discriminate Hd. Qed.

(** After any series of requests from a cold start, a body served from the
    cache (markers HIT, STALE, ERROR-FALLBACK) is the body of a 2xx response
    that one of those requests got from the upstream, for the same three
    validated values and the same upstream URL. *)
Theorem cached_body_was_fetched (steps : list (World * Request))
    (w : World) (req : Request) :
  let s := handler w req (final_cache steps initial_cache) in
  served_from_cache (response s) ->
  exists w' r' st,
    In (w', r') steps
    /\ validated r' = validated req
    /\ geckoUrl r' = geckoUrl req
    /\ fetch w' (geckoUrl r') = Responds st (Some (body (response s)))
    /\ ok st = true.
Proof.
  cbv zeta. intros Hserved.
  apply served_from_cache_body in Hserved.
  apply cached_for_inv in Hserved as (Hd & _ & Hk).
  destruct (cache_genuine_run steps [] initial_cache initial_cache_genuine _ _ Hd Hk)
    as (w' & r' & st & Hin & Hkey & Hf & Hok).
  exists w', r', st. apply cacheKey_inj in Hkey.
  repeat split; auto.
  unfold geckoUrl. now rewrite Hkey.
Qed.

(** A cold start, one good fetch, then the same query in capitals with the
    network down. *)
Lemma cached_body_was_fetched_witness :
  exists w' r' st,
    In (w', r') [(world_ok 1000, req_btc_eth)]
    /\ validated r' = validated req_btc_eth_shouting
    /\ geckoUrl r' = geckoUrl req_btc_eth_shouting
    /\ fetch w' (geckoUrl r')
       = Responds st
           (Some (body (response
              (handler (world_down 500000) req_btc_eth_shouting
                 (final_cache [(world_ok 1000, req_btc_eth)] initial_cache)))))
    /\ ok st = true.
Proof.
  apply (cached_body_was_fetched [(world_ok 1000, req_btc_eth)]
           (world_down 500000) req_btc_eth_shouting).
  right. right. reflexivity.
Defined.

(** The cache has one slot: once a request for one query has fetched and
    stored a 2xx body, a request for any other query is not answered from
    the cache, however soon it comes. *)
Theorem other_query_is_not_served_from_cache (w1 w2 : World) (r1 r2 : Request)
    (cache : Cache) (st : Z) (text : string) :
  validated r1 <> validated r2 ->
  called_upstream (handler w1 r1 cache) ->
  fetch w1 (geckoUrl r1) = Responds st (Some text) ->
  ok st = true ->
  let s := handler w2 r2 (cache_after (handler w1 r1 cache)) in
  fetched s = [geckoUrl r2]
  /\ (x_cache (response s) = Some "MISS" \/ x_cache (response s) = None).
Proof.
  intros Hne Hcall Hf Hok. cbv zeta.
  rewrite (success_is_stored w1 r1 cache st text Hcall Hf Hok).
  assert (Hno : cached_for (stored w1 (cacheKey r1) text) (cacheKey r2) = None).
  { apply cached_for_no_entry. right. simpl. intros [= E].
    apply Hne. now apply cacheKey_inj. }
  by_path w2 r2 (stored w1 (cacheKey r1) text); auto; try congruence.
  apply cache_hit_inv in H as [H _]. congruence.
Qed.

(** Solana in euros is fetched; bitcoin and ethereum in dollars, asked one
    millisecond later, goes upstream. *)
Lemma other_query_is_not_served_from_cache_witness :
  let s := handler (world_ok 1002) req_btc_eth
             (cache_after (handler (world_ok 1000) req_solana_eur initial_cache)) in
  fetched s = [geckoUrl req_btc_eth]
  /\ (x_cache (response s) = Some "MISS" \/ x_cache (response s) = None).
Proof.
  apply (other_query_is_not_served_from_cache (world_ok 1000) (world_ok 1002)
           req_solana_eur req_btc_eth initial_cache 200 payload_btc).
  - vm_compute. discriminate.
  - vm_compute. discriminate.
  - reflexivity.
  - reflexivity.
Defined.

(** Once the entry is no longer fresh, a 2xx answer of the upstream with a
    body (a status that is not a null body status) wins over whatever the
    cache holds: its body is returned under MISS with the upstream status,
    and replaces the entry with the time of the store. *)
Theorem stale_entry_is_refreshed (w : World) (req : Request) (cache : Cache)
    (st : Z) (text : string) :
  isFresh (now_check w) (timestamp cache) = false ->
  fetch w (geckoUrl req) = Responds st (Some text) ->
  ok st = true ->
  null_body_status st = false ->
  let s := handler w req cache in
  body (response s) = text
  /\ status (response s) = st
  /\ x_cache (response s) = Some "MISS"
  /\ fetched s = [geckoUrl req]
  /\ cache_after s
     = {| data := Some text; key := Some (cacheKey req); timestamp := now_store w |}.
Proof.
  intros Hstale Hf Hok Hnull. cbv zeta.
  rewrite (success_is_passed_on w req cache st text);
    [repeat split| |assumption|assumption|now apply ok_buildable].
  unfold called_upstream. by_path w req cache; try discriminate.
  apply cache_hit_inv in H as [_ H]. congruence.
Qed.

(** The entry of time 1001 read at time 200000, with the upstream up. *)
Lemma stale_entry_is_refreshed_witness :
  let s := handler (world_ok 200000) req_btc_eth cache_empty_body in
  body (response s) = payload_btc
  /\ status (response s) = 200%Z
  /\ x_cache (response s) = Some "MISS"
  /\ fetched s = [geckoUrl req_btc_eth]
  /\ cache_after s
     = {| data := Some payload_btc; key := Some (cacheKey req_btc_eth);
          timestamp := 200001 |}.
Proof.
  apply (stale_entry_is_refreshed (world_ok 200000) req_btc_eth cache_empty_body
           200 payload_btc); reflexivity.
Defined.

(** No retry: a run of the handler goes upstream at most once, to the URL
    of the validated query, and not at all exactly when it answers under
    HIT. *)
Theorem at_most_one_upstream_call (w : World) (req : Request) (cache : Cache) :
  let s := handler w req cache in
  (x_cache (response s) = Some "HIT" /\ fetched s = [])
  \/ (x_cache (response s) <> Some "HIT" /\ fetched s = [geckoUrl req]).
Proof.
  cbv zeta. by_path w req cache;
    solve [ left; split; reflexivity | right; split; [discriminate|reflexivity] ].
Qed.

(** Every response, the hard failure included, is declared as JSON and
    open to every origin; every response but the hard failure carries a
    cache-control directive of 120 seconds. *)
Theorem every_response_is_json_with_cors (w : World) (req : Request) (cache : Cache) :
  let r := response (handler w req cache) in
  header "Content-Type" r = Some "application/json"
  /\ header "Access-Control-Allow-Origin" r = Some "*"
  /\ ((x_cache r = None /\ header "Cache-Control" r = None /\ status r = 500%Z)
      \/ (x_cache r = Some "ERROR-FALLBACK"
          /\ header "Cache-Control" r = Some "public, max-age=120")
      \/ (x_cache r <> None /\ x_cache r <> Some "ERROR-FALLBACK"
          /\ header "Cache-Control" r
             = Some "public, max-age=120, stale-while-revalidate=60")).
Proof.
  cbv zeta. by_path w req cache; (split; [reflexivity|split; [reflexivity|]]).
  - right; right. repeat split; discriminate.
  - right; right. repeat split; discriminate.
  - right; right. repeat split; discriminate.
  - right; left. split; reflexivity.
  - left. repeat split.
  - left. repeat split.
Qed.

(** The cache is written exactly when the handler goes upstream, gets a
    2xx and reads its body: the body is then stored under the key of the
    request with the time of the store, whether or not a response can be
    built afterwards. In every other run (an answer from the fresh entry, a
    rejected fetch, a status outside 2xx, a body that cannot be read) the
    cache is left as it was. *)
Theorem cache_is_written_exactly_on_2xx (w : World) (req : Request) (cache : Cache) :
  let s := handler w req cache in
  (exists st text,
      fetched s = [geckoUrl req]
      /\ fetch w (geckoUrl req) = Responds st (Some text)
      /\ ok st = true
      /\ cache_after s
         = {| data := Some text; key := Some (cacheKey req);
              timestamp := now_store w |})
  \/ (cache_after s = cache
      /\ (fetched s = []
          \/ fetch w (geckoUrl req) = FetchRejects
          \/ exists st text,
               fetch w (geckoUrl req) = Responds st text
               /\ (ok st = false \/ text = None))).
Proof.
  cbv zeta. by_path w req cache.
  - right. auto.
  - right. split; [reflexivity|]. right; right. exists 429%Z, text. auto.
  - destruct (ok st) eqn:Hok.
    + left. exists st, text. auto.
    + right. split; [reflexivity|]. right; right. exists st, (Some text). auto.
  - right. split; [reflexivity|]. right.
    destruct H0 as [E|[(st & _ & E)|(st & text & E & Hok & _)]]; eauto 7.
  - right. split; [reflexivity|]. right.
    destruct H0 as [[E|[(st & _ & E)|(st & text & E & Hok & _)]]|E]; eauto 7.
  - left. exists st, EmptyString. auto.
Qed.

End HandlerMore.

(* ====================================================================== *)
(** * The quote fetchers, continued *)
(* ====================================================================== *)

Module MarketMore.

Import JS Market Chars MarketSamples MoreSamples CharFacts.

Lemma encode_char_encoded (c : ascii) : all_chars encoded_char (encode_char c) = true.
Proof. every_char c. Qed.

Lemma encodeURIComponent_encoded (s : string) :
  all_chars encoded_char (encodeURIComponent s) = true.
Proof.
  induction s as [|c r IH]; simpl; [reflexivity|].
  now rewrite all_chars_app, encode_char_encoded, IH.
Qed.

Lemma encoded_free (x : ascii) (s : string) :
  encoded_char x = false -> occurrences x (encodeURIComponent s) = 0%nat.
Proof.
  intros Hx. apply (occurrences_outside encoded_char); [assumption|].
  apply encodeURIComponent_encoded.
Qed.

Lemma decode_first_encode_char (c : ascii) (r : string) :
  decode_first (encode_char c ++ r) = Some (c, r).
Proof.
  destruct c as [b0 b1 b2 b3 b4 b5 b6 b7].
  destruct b0, b1, b2, b3, b4, b5, b6, b7; vm_compute; reflexivity.
Qed.

Lemma encodeURIComponent_inj (s1 s2 : string) :
  encodeURIComponent s1 = encodeURIComponent s2 -> s1 = s2.
Proof.
  revert s2. induction s1 as [|c1 r1 IH]; intros [|c2 r2]; simpl; intros E.
  - reflexivity.
  - apply (f_equal decode_first) in E.
    rewrite decode_first_encode_char in E. discriminate E.
  - apply (f_equal decode_first) in E.
    rewrite decode_first_encode_char in E. discriminate E.
  - apply (f_equal decode_first) in E.
    rewrite !decode_first_encode_char in E. inversion E; subst.
    f_equal. now apply IH.
Qed.

Lemma append_inv_head (p a b : string) : (p ++ a = p ++ b)%string -> a = b.
Proof.
  induction p as [|c p IH]; simpl; intros E; [assumption|].
  inversion E. auto.
Qed.

Lemma length_append (a b : string) :
  String.length (a ++ b) = (String.length a + String.length b)%nat.
Proof.
  induction a as [|c a IH]; simpl; [reflexivity|]. now rewrite IH.
Qed.

Lemma encode_char_unreserved (c : ascii) :
  unreserved c = true -> encode_char c = String c EmptyString.
Proof. unfold encode_char. now intros ->. Qed.

Lemma encode_char_length (c : ascii) :
  (String.length (encode_char c) = 1 /\ unreserved c = true)
  \/ (3 <= String.length (encode_char c) /\ unreserved c = false).
Proof.
  destruct c as [b0 b1 b2 b3 b4 b5 b6 b7].
  destruct b0, b1, b2, b3, b4, b5, b6, b7; vm_compute;
    solve [ left; split; reflexivity
          | right; split; [repeat constructor | reflexivity] ].
Qed.

Lemma encodeURIComponent_length (s : string) :
  (String.length s <= String.length (encodeURIComponent s))%nat.
Proof.
  induction s as [|c r IH]; simpl; [lia|].
  rewrite length_append.
  destruct (encode_char_length c) as [[H _]|[H _]]; lia.
Qed.

(** ** What the escaping keeps out of the URLs *)

(** The escaped symbol is made of unreserved characters and percent
    escapes only, so it holds no ampersand, equal sign, question mark,
    fragment mark, slash or blank: in the Finnhub URL the only ampersands
    besides the one before [token] are those of the key, which is inserted
    as it is, and the Yahoo URL has the six slashes of its fixed part. *)
Theorem escaped_symbol_stays_in_its_place (symbol apiKey : string) :
  let e := encodeURIComponent symbol in
  all_chars encoded_char e = true
  /\ occurrences "&" e = 0%nat
  /\ occurrences "=" e = 0%nat
  /\ occurrences "?" e = 0%nat
  /\ occurrences "#" e = 0%nat
  /\ occurrences "/" e = 0%nat
  /\ occurrences " " e = 0%nat
  /\ occurrences "&" (finnhubUrl symbol apiKey) = (1 + occurrences "&" apiKey)%nat
  /\ occurrences "/" (yahooUrl symbol) = 6%nat.
Proof.
  cbv zeta. split; [apply encodeURIComponent_encoded|].
  repeat (split; [apply encoded_free; reflexivity|]).
  split.
  - unfold finnhubUrl. rewrite !occurrences_app.
    rewrite (encoded_free "&" symbol) by reflexivity. reflexivity.
  - unfold yahooUrl. rewrite occurrences_app.
    rewrite (encoded_free "/" symbol) by reflexivity. reflexivity.
Qed.

(** Different symbols never share an upstream URL: the escaping can be
    undone, so the Yahoo URL determines the symbol, and the Finnhub URL
    determines the symbol and the key. *)
Theorem upstream_urls_determine_the_symbol (s1 s2 k1 k2 : string) :
  (encodeURIComponent s1 = encodeURIComponent s2 -> s1 = s2)
  /\ (yahooUrl s1 = yahooUrl s2 -> s1 = s2)
  /\ (finnhubUrl s1 k1 = finnhubUrl s2 k2 -> s1 = s2 /\ k1 = k2).
Proof.
  split; [apply encodeURIComponent_inj|]. split.
  - unfold yahooUrl. intros E. apply append_inv_head in E.
    now apply encodeURIComponent_inj.
  - unfold finnhubUrl. intros E. apply append_inv_head in E.
    change (encodeURIComponent s1 ++ String "&" ("token=" ++ k1)
            = encodeURIComponent s2 ++ String "&" ("token=" ++ k2))%string in E.
    apply cut_at_first in E as [E1 E2]; try (apply encoded_free; reflexivity).
    split; [now apply encodeURIComponent_inj|].
    now apply (append_inv_head "token=") in E2.
Qed.

(** Two symbols of the Yahoo-only list, and a symbol beside its own
    escaped form. *)
Lemma upstream_urls_determine_the_symbol_witness :
  yahooUrl "GC=F" <> yahooUrl "CL=F"
  /\ finnhubUrl "GC=F" "k" <> finnhubUrl "GC%3DF" "k".
Proof.
  split.
  - intros E.
    apply (proj1 (proj2 (upstream_urls_determine_the_symbol "GC=F" "CL=F" "k" "k"))) in E.
    discriminate E.
  - intros E.
    apply (proj2 (proj2 (upstream_urls_determine_the_symbol "GC=F" "GC%3DF" "k" "k"))) in E.
    destruct E as [E _]. discriminate E.
Defined.

(** Escaping leaves a symbol as it is exactly when the symbol is made of
    unreserved characters, and it never shortens a symbol. *)
Theorem escaping_changes_reserved_only (symbol : string) :
  (encodeURIComponent symbol = symbol <-> all_chars unreserved symbol = true)
  /\ (String.length symbol <= String.length (encodeURIComponent symbol))%nat.
Proof.
  split; [|apply encodeURIComponent_length].
  induction symbol as [|c r IH]; simpl; [tauto|].
  pose proof (encodeURIComponent_length r) as Hlen.
  destruct (encode_char_length c) as [[Hl Hu]|[Hl Hu]]; rewrite Hu; simpl.
  - rewrite (encode_char_unreserved c Hu). simpl. rewrite <- IH.
    split; [now intros [= ->]|now intros ->].
  - split; [|discriminate]. intros E.
    apply (f_equal String.length) in E. rewrite length_append in E.
    simpl in E. lia.
Qed.

(** ** The Yahoo fetcher *)

Lemma non_null_filter (vs : list (option float)) :
  map Some (non_null vs) = filter is_some vs.
Proof.
  induction vs as [|[v|] vs IH]; simpl; [reflexivity| |exact IH].
  now rewrite IH.
Qed.

Lemma non_null_length (vs : list (option float)) :
  (List.length (non_null vs) <= List.length vs)%nat.
Proof.
  induction vs as [|[v|] vs IH]; simpl; lia.
Qed.

Lemma non_null_all (vs : list (option float)) :
  forallb is_some vs = true -> map Some (non_null vs) = vs.
Proof.
  induction vs as [|[v|] vs IH]; simpl; [reflexivity| |discriminate].
  intros H. now rewrite (IH H).
Qed.

(** The trailing series of a quote is the [close] series of the first
    quote of the first result with its nulls dropped: the numbers are kept
    in order, nothing is added, a series without nulls is kept whole, and a
    missing series gives an empty one. *)
Theorem sparkline_drops_nulls_only (fetch : string -> Upstream YahooChartResponse)
    (symbol : string) (st : Z) (data : YahooChartResponse)
    (result : YahooResult) (rest : list YahooResult) :
  fetch (yahooUrl symbol) = Responds st (Some data) ->
  ok st = true ->
  chart_result data = result :: rest ->
  exists q,
    fetchYahooQuote fetch symbol = Some q
    /\ (forall vs, closes_of result = Some vs ->
          map Some (sparkline q) = filter is_some vs
          /\ (List.length (sparkline q) <= List.length vs)%nat
          /\ (forallb is_some vs = true -> map Some (sparkline q) = vs))
    /\ (closes_of result = None -> sparkline q = []).
Proof.
  intros Hf Hok Hres. unfold fetchYahooQuote. rewrite Hf, Hok, Hres. simpl.
  eexists. split; [reflexivity|]. simpl. unfold sparkline_of. split.
  - intros vs ->. split; [apply non_null_filter|].
    split; [apply non_null_length|apply non_null_all].
  - now intros ->.
Qed.

(** The series [1, null, 2] gives [1, 2]. *)
Lemma sparkline_drops_nulls_only_witness :
  exists q,
    fetchYahooQuote (yahoo_answers (meta_price_only 4500.25)) "^GSPC" = Some q
    /\ sparkline q = [1; 2]%float.
Proof.
  destruct (sparkline_drops_nulls_only (yahoo_answers (meta_price_only 4500.25)) "^GSPC"
              200%Z (chart_of (meta_price_only 4500.25))
              {| meta := meta_price_only 4500.25;
                 indicators :=
                   Some {| quote := Some [ {| close := Some [Some 1%float; None; Some 2%float] |} ] |} |}
              [] eq_refl eq_refl eq_refl) as (q & Hq & _ & _).
  exists q. split; [exact Hq|].
  vm_compute in Hq. inversion Hq. reflexivity.
Defined.

(** The Yahoo fetcher returns [null] whenever the fetch rejects, the
    status is outside 2xx, the body does not parse, or the result list is
    empty; and a quote it returns always comes from a 2xx answer with a
    first result, whose [regularMarketPrice] is the price of the quote. *)
Theorem yahoo_quote_failures_and_source (fetch : string -> Upstream YahooChartResponse)
    (symbol : string) :
  (fetch (yahooUrl symbol) = FetchRejects -> fetchYahooQuote fetch symbol = None)
  /\ (forall st json,
        fetch (yahooUrl symbol) = Responds st json ->
        ok st = false \/ json = None
        \/ (exists data, json = Some data /\ chart_result data = []) ->
        fetchYahooQuote fetch symbol = None)
  /\ (forall q,
        fetchYahooQuote fetch symbol = Some q ->
        exists st data result rest,
          fetch (yahooUrl symbol) = Responds st (Some data)
          /\ ok st = true
          /\ chart_result data = result :: rest
          /\ yprice q = regularMarketPrice (meta result)
          /\ sparkline q = sparkline_of result).
Proof.
  unfold fetchYahooQuote.
  destruct (fetch (yahooUrl symbol)) as [|st json] eqn:Hf.
  { repeat split; try discriminate. }
  split; [discriminate|]. split.
  - intros st' json' E [H|[H|(data & H1 & H2)]]; inversion E; subst.
    + now rewrite H.
    + destruct (ok st'); reflexivity.
    + destruct (ok st'); simpl; [now rewrite H2|reflexivity].
  - intros q. destruct (ok st) eqn:Hok; simpl; [|discriminate].
    destruct json as [data|]; [|discriminate].
    destruct (chart_result data) as [|result rest] eqn:Hres; [discriminate|].
    intros [= <-]. exists st, data, result, rest. auto.
Qed.

(** A 2xx answer with an empty result list gives no quote. *)
Lemma yahoo_quote_failures_and_source_witness :
  fetchYahooQuote
    (fun _ => Responds 200 (Some {| chart_result := [] |})) "NOPE" = None.
Proof.
  apply (proj1 (proj2 (yahoo_quote_failures_and_source
                         (fun _ => Responds 200 (Some {| chart_result := [] |})) "NOPE"))
           200%Z (Some {| chart_result := [] |})).
  - reflexivity.
  - right. right. exists {| chart_result := [] |}. split; reflexivity.
Defined.

(** ** The markets fetcher *)

(** The markets fetcher never fails and never invents items: a non-empty
    result is the array of a 2xx response as it came, a 2xx array is
    returned as it came, and every failure gives the empty list. The ids
    are joined into the URL as they are, without escaping. *)
Theorem markets_result_is_the_upstream_array
    (fetch : string -> Upstream MarketsBody) (ids : list string) :
  let r := fetchCoinGeckoMarkets fetch ids in
  let u := fetch (marketsUrl ids) in
  (r <> [] -> exists st, u = Responds st (Some (IsArray r)) /\ ok st = true)
  /\ (forall st items, u = Responds st (Some (IsArray items)) -> ok st = true -> r = items)
  /\ (u = FetchRejects -> r = [])
  /\ (forall st json, u = Responds st json -> ok st = false -> r = [])
  /\ (forall st, u = Responds st (Some NotArray) \/ u = Responds st None -> r = [])
  /\ occurrences "&" (marketsUrl ids) = (4 + occurrences "&" (join ids))%nat.
Proof.
  cbv zeta.
  assert (Hamp : occurrences "&" (marketsUrl ids) = (4 + occurrences "&" (join ids))%nat).
  { unfold marketsUrl. rewrite !occurrences_app.
    change (occurrences "&" "https://api.coingecko.com/api/v3/coins/markets?vs_currency=usd&ids=")
      with 1%nat.
    change (occurrences "&" "&order=market_cap_desc&sparkline=true&price_change_percentage=24h")
      with 3%nat.
    lia. }
  unfold fetchCoinGeckoMarkets.
  destruct (fetch (marketsUrl ids)) as [|st json] eqn:Hf.
  - split; [congruence|]. split; [discriminate|]. split; [reflexivity|].
    split; [discriminate|]. split; [|exact Hamp].
    intros st [?|?]; discriminate.
  - split; [|split; [|split; [|split; [|split; [|exact Hamp]]]]].
    + destruct (ok st) eqn:Hok; simpl; [|congruence].
      destruct json as [[items|]|]; try congruence. intros _. eauto.
    + intros st' items E Hok. inversion E; subst. rewrite Hok. reflexivity.
    + discriminate.
    + intros st' json' E Hok. inversion E; subst. rewrite Hok. reflexivity.
    + intros st' [E|E]; inversion E; subst; destruct (ok st'); reflexivity.
Qed.

(** A 2xx array of one item, a 2xx object, and a 503. *)
Lemma markets_result_is_the_upstream_array_witness :
  fetchCoinGeckoMarkets (markets_answers 200 (Some (IsArray [btc_item]))) ["bitcoin"]
    = [btc_item]
  /\ fetchCoinGeckoMarkets (markets_answers 200 (Some NotArray)) ["bitcoin"] = []
  /\ fetchCoinGeckoMarkets (markets_answers 503 (Some (IsArray [btc_item]))) ["bitcoin"]
     = [].
Proof.
  split; [|split].
  - apply (proj1 (proj2 (markets_result_is_the_upstream_array
                           (markets_answers 200 (Some (IsArray [btc_item]))) ["bitcoin"]))
             200%Z [btc_item]); reflexivity.
  - apply (proj1 (proj2 (proj2 (proj2 (proj2 (markets_result_is_the_upstream_array
                           (markets_answers 200 (Some NotArray)) ["bitcoin"])))))
             200%Z). left. reflexivity.
  - apply (proj1 (proj2 (proj2 (proj2 (markets_result_is_the_upstream_array
                           (markets_answers 503 (Some (IsArray [btc_item]))) ["bitcoin"]))))
             503%Z (Some (IsArray [btc_item]))); reflexivity.
Defined.

End MarketMore.
